(** * exponax: reaction presets, their nonlinear evaluator, and the plot facets

    A shallow embedding of
    - [exponax/reaction/_allen_cahn.py], [_fisher_kpp.py],
      [_belousov_zhabotinsky.py]: the three reaction-diffusion presets and the
      three-channel Belousov-Zhabotinsky nonlinear evaluator;
    - [exponax/viz/_plot.py]: the spatio-temporal and 2d plot routines and
      their facets.

    Conventions.
    - A Python [int] is a [Z], a Python [float] a binary64 [float] (the
      kernel's primitive floats), a Python [list] a [list].
    - A call that can raise returns a [Py.result]; keyword arguments with a
      default are [option]s, [None] standing for an omitted argument.
    - A spectral or physical array with a leading channel (or dimension) axis
      is a list of rows, one row per entry of the leading axis; a row holds
      the entries along the trailing axis (one per Fourier mode, or per grid
      point).  Where the arrays of a statement have one trailing shape, as a
      state and the mask of its evaluator have, a row may as well be read as
      the trailing axes of a grid of more dimensions, flattened.  The scalars
      of these arrays and their arithmetic are the operations of a [Scalar]
      instance: the statements below hold for every instance unless they name
      the laws they use, and can be run on integers and on binary64
      numbers. *)

From Stdlib Require Import ZArith Lia.
From Stdlib Require Import Floats.PrimFloat Floats.FloatOps Floats.SpecFloat.
From Stdlib Require Numbers.Cyclic.Int63.Uint63.
From stdpp Require Import base option list strings pretty.

Set Default Proof Using "Type".
#[global] Set Warnings "-inexact-float".

(** ** Python exceptions and fallible calls *)

Module Py.

Inductive exn : Type :=
| ValueError (msg : string)
| IndexError (msg : string)
| TypeError (msg : string)
| AttributeError (msg : string).

Inductive result (A : Type) : Type :=
| Ok (a : A)
| Raise (e : exn).

Arguments Ok {A} a.
Arguments Raise {A} e.

Definition bind {A B : Type} (m : result A) (k : A -> result B) : result B :=
  match m with
  | Ok a => k a
  | Raise e => Raise e
  end.

Definition is_ok {A : Type} (m : result A) : bool :=
  match m with Ok _ => true | Raise _ => false end.

(** [xs[i]] on a Python list, for a non-negative literal index. *)
Definition list_getitem {A : Type} (xs : list A) (i : nat) : result A :=
  match xs !! i with
  | Some x => Ok x
  | None => Raise (IndexError "list index out of range")
  end.

(** A keyword argument: the value passed, or the default of the signature. *)
Definition kwarg {A : Type} (default : A) (passed : option A) : A :=
  match passed with
  | Some a => a
  | None => default
  end.

End Py.

Import Py.

#[global] Instance result_ret : MRet result := @Ok.
#[global] Instance result_bind : MBind result := fun A B k m => Py.bind m k.
#[global] Instance result_fmap : FMap result :=
  fun A B f m => Py.bind m (fun a => Ok (f a)).

(** Python's [f"{n}"] for an [int]. *)
Definition str_of_int (n : Z) : string := pretty n.

(** ** Scalars of the arrays

    The complex scalars of a spectral array and the real scalars of a
    physical array, with the arithmetic the source applies to them.  A Python
    [float] or [bool] that meets an array is promoted to the array's scalar
    type first ([of_float], [of_bool]). *)

Class Scalar (A : Type) : Type := {
  szero : A;
  sone : A;
  sadd : A -> A -> A;
  ssub : A -> A -> A;
  smul : A -> A -> A;
  of_float : float -> A;
}.

Declare Scope scalar_scope.
Delimit Scope scalar_scope with S.
Infix "+" := sadd : scalar_scope.
Infix "-" := ssub : scalar_scope.
Infix "*" := smul : scalar_scope.

(** [x ** n] for a literal exponent [n >= 1] is a product of [n] factors. *)
Fixpoint spow {A : Type} `{Scalar A} (x : A) (n : nat) : A :=
  match n with
  | O => sone
  | S O => x
  | S n' => smul x (spow x n')
  end.

Definition of_bool {A : Type} `{Scalar A} (b : bool) : A :=
  if b then sone else szero.

(** Exact integers: the instance on which the laws of exact arithmetic hold
    on the nose.  A float is read as its integer part. *)
Definition Z_of_float (f : float) : Z :=
  match Prim2SF f with
  | S754_finite s m e =>
      let v := match e with
               | Zneg p => Z.quot (Zpos m) (2 ^ Zpos p)
               | _ => (Zpos m * 2 ^ e)%Z
               end in
      if s then (- v)%Z else v
  | _ => 0%Z
  end.

#[global] Instance Z_Scalar : Scalar Z := {|
  szero := 0%Z; sone := 1%Z;
  sadd := Z.add; ssub := Z.sub; smul := Z.mul;
  of_float := Z_of_float;
|}.

(** complex128 as a pair of binary64 numbers, with the textbook product. *)
Definition complex128 : Type := (float * float)%type.

#[global] Instance complex128_Scalar : Scalar complex128 := {|
  szero := (0, 0)%float; sone := (1, 0)%float;
  sadd := fun x y => (x.1 + y.1, x.2 + y.2)%float;
  ssub := fun x y => (x.1 - y.1, x.2 - y.2)%float;
  smul := fun x y => (x.1 * y.1 - x.2 * y.2, x.1 * y.2 + x.2 * y.1)%float;
  of_float := fun a => (a, 0%float);
|}.

#[global] Instance float_Scalar : Scalar float := {|
  szero := 0%float; sone := 1%float;
  sadd := PrimFloat.add; ssub := PrimFloat.sub; smul := PrimFloat.mul;
  of_float := fun a => a;
|}.

(** ** Arrays with a leading axis *)

(** An array of shape [(n, k)]: [n] rows of [k] entries. *)
Definition array (A : Type) : Type := list (list A).

Section Broadcast.
Context {A : Type} `{Scalar A}.

(** [a * arr] for a Python float [a]. *)
Definition float_mul_array (a : float) (arr : array A) : array A :=
  map (map (fun x => (of_float a * x)%S)) arr.

(** [arr + b] for a Python float [b]. *)
Definition array_add_float (arr : array A) (b : float) : array A :=
  map (map (fun x => (x + of_float b)%S)) arr.

(** [arr ** n] for a literal exponent. *)
Definition array_pow (arr : array A) (n : nat) : array A :=
  map (map (fun x => spow x n)) arr.

(** [jnp.sum(arr, axis=0, keepdims=True)]: the rows are added entry by
    entry, from the first row on; one row is left. *)
Definition sum_axis0_keepdims (arr : array A) : array A :=
  match arr with
  | [] => [[]]
  | r :: rs => [foldl (zip_with sadd) r rs]
  end.

(** Entry-wise arithmetic of two rows of one array. *)
Definition row_add (u v : list A) : list A := zip_with sadd u v.
Definition row_sub (u v : list A) : list A := zip_with ssub u v.
Definition row_mul (u v : list A) : list A := zip_with smul u v.
Definition row_pow (u : list A) (n : nat) : list A := map (fun x => spow x n) u.



Definition mask_apply (mask : list bool) (row : list A) : list A :=
  zip_with (fun m x => (of_bool m * x)%S) mask row.

Definition mask_mul_row (mask : list bool) (row : list A) : result (list A) :=
  if decide (length row = length mask) then Ok (mask_apply mask row)
  else
    match mask, row with
    | [m], _ => Ok (map (fun x => (of_bool m * x)%S) row)
    | _, [x] => Ok (map (fun m => (of_bool m * x)%S) mask)
    | _, _ => Raise (TypeError "mul got incompatible shapes for broadcasting")
    end.

Definition mask_mul (mask : list bool) (arr : array A) : result (array A) :=
  mapM (mask_mul_row mask) arr.
End Broadcast.

(** ** [exponax._spectral] *)

(** Modelled from the spec: [build_laplace_operator] of [exponax/_spectral.py],
    which is not among the sources.  The derivative operator, of shape
    [(D, ...)], is raised to the power [order] entry by entry and its [D]
    components are summed, so that [order = 2] gives the sum of the squared
    single-axis operators; the result has shape [(1, ...)]. *)
Definition build_laplace_operator {A : Type} `{Scalar A}
    (derivative_operator : array A) (order : nat) : array A :=
  sum_axis0_keepdims (array_pow derivative_operator order).

(** ** [jax.numpy] as the evaluators use it *)

(** [jnp.fft.irfftn] and [jnp.fft.rfftn] over the spatial axes
    [space_indices(D)], the inverse one with the output shape
    [spatial_shape(D, N)].  The leading channel axis is not transformed, so
    the transforms act on one channel at a time.  What they compute is left
    open. *)
Class FFT (R C : Type) : Type := {
  irfftn : Z -> Z -> list C -> list R;
  rfftn : Z -> list R -> list C;
}.

(** [u[i]] on a jax array for a literal index [i >= 0]: an index past the
    end is clamped to the last entry; only an empty axis has no entry to
    return. *)
Definition jnp_getitem {A : Type} (u : array A) (i : nat) : result (list A) :=
  match last u with
  | None => Raise (IndexError "index is out of bounds for axis 0 with size 0")
  | Some z => Ok (default z (u !! i))
  end.

(** ** [exponax.nonlin_fun] *)

Module BaseNonlinearFun.
Section Defs.
Context {C : Type}.
(** The mask builder of [exponax/_spectral.py] (not among the sources):
    from the number of spatial dimensions, the number of points and the
    cutoff fraction to a binary mask of shape [(1, ...)]. *)
Variable low_pass_mask : Z -> Z -> float -> list bool.

Record t : Type := {
  num_spatial_dims : Z;
  num_points : Z;
  num_channels : Z;
  derivative_operator : array C;
  dealiasing_mask : list bool;
}.

(** Modelled from the spec: [BaseNonlinearFun.__init__] of
    [exponax/nonlin_fun/_base.py], which is not among the sources.  It
    stores its arguments and computes the dealiasing mask once, from the
    cutoff fraction. *)
Definition __init__ (num_spatial_dims num_points num_channels : Z)
    (derivative_operator : array C) (dealiasing_fraction : float) : t :=
  {| num_spatial_dims := num_spatial_dims;
     num_points := num_points;
     num_channels := num_channels;
     derivative_operator := derivative_operator;
     dealiasing_mask :=
       low_pass_mask num_spatial_dims num_points dealiasing_fraction |}.
End Defs.
Arguments t : clear implicits.
End BaseNonlinearFun.

Module BelousovZhabotinskyNonlinearFun.
Section Defs.
Context {R C : Type} `{Scalar R} `{Scalar C} `{FFT R C}.
Variable low_pass_mask : Z -> Z -> float -> list bool.

Definition t : Type := BaseNonlinearFun.t C.

Definition __init__ (num_spatial_dims num_points num_channels : Z)
    (derivative_operator : array C) (dealiasing_fraction : float) : result t :=
  if decide (num_channels <> 3%Z) then
    Raise (ValueError
             ("Expected num_channels = 3, got " +:+ str_of_int num_channels +:+ "."))
  else
    Ok (BaseNonlinearFun.__init__ low_pass_mask
          num_spatial_dims num_points num_channels
          derivative_operator dealiasing_fraction).

Definition evaluate (self : t) (u_hat : array C) : result (array C) :=
  u_hat_dealiased ← mask_mul (BaseNonlinearFun.dealiasing_mask self) u_hat;
  let u : array R :=
    map (irfftn (BaseNonlinearFun.num_spatial_dims self)
                (BaseNonlinearFun.num_points self)) u_hat_dealiased in
  u0 ← jnp_getitem u 0;
  u1 ← jnp_getitem u 1;
  u2 ← jnp_getitem u 2;
  let u_power : array R :=
    [ row_sub (row_sub (row_add u0 u1) (row_mul u0 u1)) (row_pow u0 2);
      row_sub (row_sub u2 u1) (row_mul u0 u1);
      row_sub u0 u2 ] in
  let u_power_hat :=
    map (rfftn (BaseNonlinearFun.num_spatial_dims self)) u_power in
  Ok u_power_hat.
End Defs.
End BelousovZhabotinskyNonlinearFun.

Module PolynomialNonlinearFun.
Section Defs.
Context {R C : Type} `{Scalar R} `{Scalar C} `{FFT R C}.
Variable low_pass_mask : Z -> Z -> float -> list bool.

Record t : Type := {
  base : BaseNonlinearFun.t C;
  coefficients : list float;
}.

(** Modelled from the spec: [PolynomialNonlinearFun.__init__] of
    [exponax/nonlin_fun/_polynomial.py], which is not among the sources; it
    keeps the coefficient list, lowest order first. *)
Definition __init__ (num_spatial_dims num_points num_channels : Z)
    (derivative_operator : array C) (dealiasing_fraction : float)
    (coefficients : list float) : t :=
  {| base := BaseNonlinearFun.__init__ low_pass_mask
               num_spatial_dims num_points num_channels
               derivative_operator dealiasing_fraction;
     coefficients := coefficients |}.

(** Modelled from the spec: the pointwise map of the polynomial evaluator,
    the sum of [c_i * u^i] over the coefficient list. *)
Definition pointwise (coefficients : list float) (u : R) : R :=
  foldl sadd szero (imap (fun i c => (of_float c * spow u i)%S) coefficients).

(** Modelled from the spec: [PolynomialNonlinearFun.evaluate], the common
    sequence around [pointwise]. *)
Definition evaluate (self : t) (u_hat : array C) : result (array C) :=
  u_hat_dealiased ← mask_mul (BaseNonlinearFun.dealiasing_mask (base self)) u_hat;
  let u : array R :=
    map (irfftn (BaseNonlinearFun.num_spatial_dims (base self))
                (BaseNonlinearFun.num_points (base self))) u_hat_dealiased in
  let u_power : array R := map (map (pointwise (coefficients self))) u in
  Ok (map (rfftn (BaseNonlinearFun.num_spatial_dims (base self))) u_power).
End Defs.
End PolynomialNonlinearFun.

(** ** [exponax._base_stepper] *)

Module BaseStepper.
(** Modelled from the spec: [BaseStepper] of [exponax/_base_stepper.py],
    which is not among the sources.  A stepper keeps the construction
    parameters it is given, unchanged for its lifetime; the operators and
    coefficients it derives from them play no part below. *)
Record t : Type := {
  num_spatial_dims : Z;
  domain_extent : float;
  num_points : Z;
  dt : float;
  num_channels : Z;
  order : Z;
  num_circle_points : Z;
  circle_radius : float;
}.

Definition __init__ (num_spatial_dims : Z) (domain_extent : float)
    (num_points : Z) (dt : float) (num_channels order num_circle_points : Z)
    (circle_radius : float) : t :=
  {| num_spatial_dims := num_spatial_dims;
     domain_extent := domain_extent;
     num_points := num_points;
     dt := dt;
     num_channels := num_channels;
     order := order;
     num_circle_points := num_circle_points;
     circle_radius := circle_radius |}.
End BaseStepper.

(** ** [exponax.reaction] *)

Module AllenCahn.
Record t : Type := {
  diffusivity : float;
  first_order_coefficient : float;
  third_order_coefficient : float;
  dealiasing_fraction : float;
  super : BaseStepper.t;
}.

(** The keyword-only arguments of [__init__]. *)
Record kwargs : Type := {
  kw_diffusivity : option float;
  kw_first_order_coefficient : option float;
  kw_third_order_coefficient : option float;
  kw_order : option Z;
  kw_dealiasing_fraction : option float;
  kw_num_circle_points : option Z;
  kw_circle_radius : option float;
}.

Definition no_kwargs : kwargs :=
  {| kw_diffusivity := None; kw_first_order_coefficient := None;
     kw_third_order_coefficient := None; kw_order := None;
     kw_dealiasing_fraction := None; kw_num_circle_points := None;
     kw_circle_radius := None |}.

Definition __init__ (num_spatial_dims : Z) (domain_extent : float)
    (num_points : Z) (dt : float) (kw : kwargs) : t :=
  let diffusivity := kwarg 5e-3%float (kw_diffusivity kw) in
  let first_order_coefficient := kwarg 1.0%float (kw_first_order_coefficient kw) in
  let third_order_coefficient := kwarg (-1.0)%float (kw_third_order_coefficient kw) in
  let order := kwarg 2%Z (kw_order kw) in
  let dealiasing_fraction := kwarg (1 / 2)%float (kw_dealiasing_fraction kw) in
  let num_circle_points := kwarg 16%Z (kw_num_circle_points kw) in
  let circle_radius := kwarg 1.0%float (kw_circle_radius kw) in
  {| diffusivity := diffusivity;
     first_order_coefficient := first_order_coefficient;
     third_order_coefficient := third_order_coefficient;
     dealiasing_fraction := dealiasing_fraction;
     super := BaseStepper.__init__ num_spatial_dims domain_extent num_points dt
                1 order num_circle_points circle_radius |}.

Section Operators.
Context {C : Type} `{Scalar C}.

Definition _build_linear_operator (self : t)
    (derivative_operator : array C) : array C :=
  let laplace := build_laplace_operator derivative_operator 2 in
  let linear_operator :=
    array_add_float (float_mul_array (diffusivity self) laplace)
                    (first_order_coefficient self) in
  linear_operator.
End Operators.
End AllenCahn.

Module FisherKPP.
Record t : Type := {
  r : float;
  dealiasing_fraction : float;
  super : BaseStepper.t;
}.

Record kwargs : Type := {
  kw_order : option Z;
  kw_r : option float;
  kw_dealiasing_fraction : option float;
  kw_num_circle_points : option Z;
  kw_circle_radius : option float;
}.

Definition no_kwargs : kwargs :=
  {| kw_order := None; kw_r := None; kw_dealiasing_fraction := None;
     kw_num_circle_points := None; kw_circle_radius := None |}.

Definition __init__ (num_spatial_dims : Z) (domain_extent : float)
    (num_points : Z) (dt : float) (kw : kwargs) : t :=
  let order := kwarg 2%Z (kw_order kw) in
  let r := kwarg 1.0%float (kw_r kw) in
  let dealiasing_fraction := kwarg (2 / 3)%float (kw_dealiasing_fraction kw) in
  let num_circle_points := kwarg 16%Z (kw_num_circle_points kw) in
  let circle_radius := kwarg 1.0%float (kw_circle_radius kw) in
  {| dealiasing_fraction := dealiasing_fraction;
     r := r;
     super := BaseStepper.__init__ num_spatial_dims domain_extent num_points dt
                1 order num_circle_points circle_radius |}.

Section Operators.
Context {R C : Type} `{Scalar R} `{Scalar C} `{FFT R C}.
Variable low_pass_mask : Z -> Z -> float -> list bool.

Definition _build_linear_operator (self : t)
    (derivative_operator : array C) : array C :=
  let laplace := build_laplace_operator derivative_operator 2 in
  let linear_operator := array_add_float laplace (r self) in
  linear_operator.

Definition _build_nonlinear_fun (self : t)
    (derivative_operator : array C) : PolynomialNonlinearFun.t (C := C) :=
  PolynomialNonlinearFun.__init__ low_pass_mask
    (BaseStepper.num_spatial_dims (super self))
    (BaseStepper.num_points (super self))
    (BaseStepper.num_channels (super self))
    derivative_operator
    (dealiasing_fraction self)
    [0.0; 0.0; - r self]%float.
End Operators.
End FisherKPP.

Module BelousovZhabotinsky.
Record t : Type := {
  diffusivities : list float;
  dealiasing_fraction : float;
  super : BaseStepper.t;
}.

Record kwargs : Type := {
  kw_diffusivities : option (list float);
  kw_order : option Z;
  kw_dealiasing_fraction : option float;
  kw_num_circle_points : option Z;
  kw_circle_radius : option float;
}.

Definition no_kwargs : kwargs :=
  {| kw_diffusivities := None; kw_order := None;
     kw_dealiasing_fraction := None; kw_num_circle_points := None;
     kw_circle_radius := None |}.

Definition __init__ (num_spatial_dims : Z) (domain_extent : float)
    (num_points : Z) (dt : float) (kw : kwargs) : t :=
  let diffusivities := kwarg [1e-5; 2e-5; 1e-5]%float (kw_diffusivities kw) in
  let order := kwarg 2%Z (kw_order kw) in
  let dealiasing_fraction := kwarg (1 / 2)%float (kw_dealiasing_fraction kw) in
  let num_circle_points := kwarg 16%Z (kw_num_circle_points kw) in
  let circle_radius := kwarg 1.0%float (kw_circle_radius kw) in
  {| diffusivities := diffusivities;
     dealiasing_fraction := dealiasing_fraction;
     super := BaseStepper.__init__ num_spatial_dims domain_extent num_points dt
                3 order num_circle_points circle_radius |}.

Section Operators.
Context {R C : Type} `{Scalar R} `{Scalar C} `{FFT R C}.
Variable low_pass_mask : Z -> Z -> float -> list bool.

Definition _build_linear_operator (self : t)
    (derivative_operator : array C) : result (array C) :=
  let laplace := build_laplace_operator derivative_operator 2 in
  d0 ← list_getitem (diffusivities self) 0;
  d1 ← list_getitem (diffusivities self) 1;
  d2 ← list_getitem (diffusivities self) 2;
  let linear_operator :=
    float_mul_array d0 laplace
    ++ float_mul_array d1 laplace
    ++ float_mul_array d2 laplace in
  Ok linear_operator.

Definition _build_nonlinear_fun (self : t) (derivative_operator : array C)
    : result (BelousovZhabotinskyNonlinearFun.t (C := C)) :=
  BelousovZhabotinskyNonlinearFun.__init__ low_pass_mask
    (BaseStepper.num_spatial_dims (super self))
    (BaseStepper.num_points (super self))
    (BaseStepper.num_channels (super self))
    derivative_operator
    (dealiasing_fraction self).
End Operators.
End BelousovZhabotinsky.

(** ** The evaluation sequence in the words of the specification

    "Dealiasing mask, inverse transform to physical space, pointwise
    nonlinear map, forward transform back to Fourier space", for an evaluator
    of three channels: the pointwise map takes the three channel values at
    one grid point to the three values of the nonlinear term there. *)

Section Sequence.
Context {R C : Type} `{Scalar R} `{Scalar C} `{FFT R C}.

(** The reaction terms of the Belousov-Zhabotinsky system at one point. *)
Definition bz_reaction (u : R * R * R) : R * R * R :=
  let '(u0, u1, u2) := u in
  ((u0 + u1 - u0 * u1 - u0 * u0)%S,
   (u2 - u1 - u0 * u1)%S,
   (u0 - u2)%S).

(** A map of three-channel points applied at every grid point. *)
Definition pointwise3 (f : R * R * R -> R * R * R) (u0 u1 u2 : list R)
    : array R :=
  let points := map f (zip (zip u0 u1) u2) in
  [ map (fun p => p.1.1) points;
    map (fun p => p.1.2) points;
    map (fun p => p.2) points ].

Definition mandatory_sequence3 (mask : list bool) (D N : Z)
    (f : R * R * R -> R * R * R) (h0 h1 h2 : list C) : result (array C) :=
  dealiased ← mask_mul mask [h0; h1; h2];
  match map (irfftn D N) dealiased with
  | [u0; u1; u2] => Ok (map (rfftn D) (pointwise3 f u0 u1 u2))
  | _ => Raise (ValueError "three channels expected")
  end.
End Sequence.

(** The transforms that leave every channel as it is: a stand-in on which the
    evaluators can be run on small integer states. *)
Definition identity_FFT : FFT Z Z := {|
  irfftn := fun _ _ x => x;
  rfftn := fun _ x => x;
|}.

(** ** [exponax.viz._plot]

    The plot routines draw through matplotlib and read their input through
    array indexing.  Both are recorded: a run of a routine is the list of the
    calls it makes on the axes and of the index operations on the leading
    axis of its input, in program order, together with its outcome.  Of a
    call on the axes the arguments that depend on the input are kept; the
    fixed styling ([cmap], [origin], [aspect], [figsize], shared axes), the
    pass-through [**kwargs] and the returned figure or image handle are
    not.  A call that matplotlib refuses for the shape of its arguments
    raises and is not recorded. *)

Module Viz.

(** The library an array belongs to: indexing a NumPy array past the end
    raises, indexing a jax array past the end is clamped to the last entry. *)
Inductive library : Type := NumPy | Jax.

(** A real array: its library, its shape, and its entries by multi-index. *)
Record ndarray : Type := {
  lib : library;
  shape : list nat;
  entry : list nat -> float;
}.

Definition ndim (a : ndarray) : nat := length (shape a).

(** [a.shape[k]] for an axis [k] the array has. *)
Definition shape_at (a : ndarray) (k : nat) : nat := nth k (shape a) 0%nat.

(** The entry [i] of the leading axis of an array with the leading size [n]
    and the trailing shape [rest]. *)
Definition leading_entry (a : ndarray) (i : nat) (rest : list nat) : ndarray :=
  {| lib := lib a; shape := rest; entry := fun idx => entry a (i :: idx) |}.

(** [a[i]] for an index [i >= 0]. *)
Definition getitem (a : ndarray) (i : nat) : result ndarray :=
  match shape a with
  | [] => Raise (IndexError "too many indices for array")
  | n :: rest =>
      if decide (i < n)%nat then Ok (leading_entry a i rest)
      else
        match lib a, n with
        | Jax, S n' => Ok (leading_entry a n' rest)
        | _, _ => Raise (IndexError "index is out of bounds for axis 0")
        end
  end.

(** [jnp.swapaxes(a, 0, 1)]. *)
Definition swapaxes01 (a : ndarray) : result ndarray :=
  match shape a with
  | n :: m :: rest =>
      Ok {| lib := Jax; shape := m :: n :: rest;
            entry := fun idx =>
              match idx with
              | j :: i :: r => entry a (i :: j :: r)
              | _ => entry a idx
              end |}
  | _ => Raise (ValueError "axis is out of bounds for array")
  end.

(** [a[:, :, None, :]] on an array of three axes. *)
Definition new_axis2 (a : ndarray) : result ndarray :=
  match shape a with
  | [n; m; k] =>
      Ok {| lib := lib a; shape := [n; m; 1%nat; k];
            entry := fun idx =>
              match idx with
              | [i; j; _; x] => entry a [i; j; x]
              | _ => entry a idx
              end |}
  | _ => Raise (IndexError "too many indices for array")
  end.

(** [a[:, 0, :]] on an array of three axes. *)
Definition channel0 (a : ndarray) : result ndarray :=
  match shape a with
  | [n; S _; k] =>
      Ok {| lib := lib a; shape := [n; k];
            entry := fun idx =>
              match idx with
              | [i; x] => entry a [i; 0%nat; x]
              | _ => entry a idx
              end |}
  | [_; O; _] => Raise (IndexError "index is out of bounds for axis 1 with size 0")
  | _ => Raise (IndexError "too many indices for array")
  end.

(** [a.T]: the axes in reverse order. *)
Definition transpose (a : ndarray) : ndarray :=
  {| lib := lib a; shape := rev (shape a);
     entry := fun idx => entry a (rev idx) |}.

(** Modelled from the spec: [wrap_bc] of [exponax/_utils.py], which is not
    among the sources.  The periodic boundary is wrapped around for display:
    every spatial axis (all but the leading channel axis) gets one more
    point, a copy of its first. *)
Definition wrap_bc (u : ndarray) : ndarray :=
  match shape u with
  | [] => u
  | c :: spatial =>
      {| lib := Jax; shape := c :: map S spatial;
         entry := fun idx =>
           match idx with
           | i :: xs => entry u (i :: zip_with (fun x n => x mod n)%nat xs spatial)
           | [] => entry u idx
           end |}
  end.

(** [jax.vmap(f)(a)]: [f] on every entry of the leading axis. *)
Definition vmap (f : ndarray -> ndarray) (a : ndarray) : result ndarray :=
  match shape a with
  | [] => Raise (ValueError "vmap was requested to map its argument along axis 0")
  | n :: rest =>
      Ok {| lib := Jax;
            shape := n :: shape (f (leading_entry a 0 rest));
            entry := fun idx =>
              match idx with
              | i :: idx' => entry (f (leading_entry a i rest)) idx'
              | [] => entry a idx
              end |}
  end.

(** A Python number in a plot extent. *)
Inductive number : Type :=
| Int (n : Z)
| Float (x : float).

Definition float_of_nat (n : nat) : float :=
  PrimFloat.of_uint63 (Uint63.of_Z (Z.of_nat n)).

Inductive event : Type :=
| Subplots (nrows ncols : nat)
| GetItem (i size : nat)
| Imshow (ax : nat) (image : ndarray) (vmin vmax : float)
         (extent : number * number * number * number)
| SetXLabel (ax : nat) (label : string)
| SetYLabel (ax : nat) (label : string)
| SetAspect (ax : nat) (aspect : string)
| SetTitle (ax : nat) (title : string)
| Remove (ax : nat).

Definition is_remove (e : event) : bool :=
  match e with Remove _ => true | _ => false end.

(** The shapes [ax.imshow] takes for its image: two axes of scalars, or
    three axes of which the last holds the 3 or 4 components of a colour; a
    last axis of size one is dropped first. *)
Definition is_image_shape (s : list nat) : bool :=
  match s with
  | [_; _] => true
  | [_; _; c] => bool_decide (c = 1 \/ c = 3 \/ c = 4)%nat
  | _ => false
  end.

(** An index operation past the end of the leading axis. *)
Definition is_past_the_end (e : event) : bool :=
  match e with GetItem i size => bool_decide (size <= i)%nat | _ => false end.

(** A run: what was done, and how it ended. *)
Record run (A : Type) : Type := Run {
  trace : list event;
  outcome : result A;
}.
Arguments Run {A} trace outcome.
Arguments trace {A} r.
Arguments outcome {A} r.

Definition run_ret {A : Type} (a : A) : run A := Run [] (Ok a).

Definition run_bind {A B : Type} (m : run A) (k : A -> run B) : run B :=
  match outcome m with
  | Ok a => Run (trace m ++ trace (k a)) (outcome (k a))
  | Raise e => Run (trace m) (Raise e)
  end.

Definition emit (e : event) : run unit := Run [e] (Ok tt).
Definition raise {A : Type} (e : exn) : run A := Run [] (Raise e).
Definition lift {A : Type} (r : result A) : run A := Run [] r.

#[global] Instance run_mret : MRet run := @run_ret.
#[global] Instance run_mbind : MBind run := fun A B k m => run_bind m k.

(** [for i, x in enumerate(xs): body], from the index [i] on. *)
Fixpoint for_enumerate {A : Type} (body : nat -> A -> run unit)
    (i : nat) (xs : list A) : run unit :=
  match xs with
  | [] => run_ret tt
  | x :: xs' => run_bind (body i x) (fun _ => for_enumerate body (S i) xs')
  end.

(** What [plt.subplots] returns. *)
Inductive axes : Type :=
| SingleAxes (ax : nat)
| AxesArray (axs : list nat).

(** [plt.subplots(nrows, ncols)]: the axes of the grid are numbered row by
    row; a grid of one cell comes back as the one axes object, not as an
    array. *)
Definition subplots (nrows ncols : nat) : run axes :=
  if decide (nrows = 0 \/ ncols = 0)%nat then
    raise (ValueError "Number of rows and columns must be a positive integer")
  else
    _ ← emit (Subplots nrows ncols);
    if decide (nrows = 1 /\ ncols = 1)%nat then mret (SingleAxes 0)
    else mret (AxesArray (seq 0 (nrows * ncols))).

(** [ax_s.flatten()]. *)
Definition flatten (ax_s : axes) : run (list nat) :=
  match ax_s with
  | SingleAxes _ => raise (AttributeError "'Axes' object has no attribute 'flatten'")
  | AxesArray axs => mret axs
  end.

(** [ax] when the caller passed one, the axes of a new figure otherwise. *)
Definition axes_or_new (ax : option nat) : run nat :=
  match ax with
  | Some ax => mret ax
  | None => _ ← emit (Subplots 1 1); mret 0%nat
  end.

(** [ax.imshow(image, vmin=vmin, vmax=vmax, extent=extent, ...)]: an image
    of any other shape is refused with [TypeError] (the message of matplotlib
    goes on to name the shape). *)
Definition imshow (ax : nat) (image : ndarray) (vmin vmax : float)
    (extent : number * number * number * number) : run unit :=
  if is_image_shape (shape image)
  then emit (Imshow ax image vmin vmax extent)
  else raise (TypeError "Invalid shape for image data").

(** [a[i]], recorded with the size of the leading axis. *)
Definition getitem_recorded (a : ndarray) (i : nat) : run ndarray :=
  _ ← emit (GetItem i (shape_at a 0));
  lift (getitem a i).

Definition plot_spatio_temporal (trj : ndarray) (vlim : float * float)
    (ax : option nat) (domain_extent : option float) (dt : option float)
    (include_init : bool) : run unit :=
  if decide (ndim trj <> 3%nat) then
    raise (ValueError "trj must be a two-axis array.")
  else
    trj_wrapped ← lift (vmap wrap_bc trj);
    let space_range : number * number :=
      match domain_extent with
      | Some domain_extent => (Int 0, Float domain_extent)
      | None => (Int 0, Int (Z.of_nat (shape_at trj_wrapped 1)))
      end in
    let time_range : number * number :=
      match dt with
      | Some dt =>
          let time_range :=
            (Int 0, Float (dt * float_of_nat (shape_at trj_wrapped 0))) in
          if negb include_init then (Float dt, time_range.2) else time_range
      | None => (Int 0, Int (Z.of_nat (shape_at trj_wrapped 0) - 1))
      end in
    ax ← axes_or_new ax;
    channel ← lift (channel0 trj_wrapped);
    _ ← imshow ax (transpose channel) vlim.1 vlim.2
          (time_range.1, time_range.2, space_range.1, space_range.2);
    _ ← emit (SetXLabel ax "Time");
    emit (SetYLabel ax "Space").

(** The end of a facet's loop body: the bounds check, after the cell has
    been plotted. *)
Definition remove_or_title (titles : option (list string))
    (num_subplots i ax : nat) : run unit :=
  if decide (num_subplots <= i)%nat then emit (Remove ax)
  else
    match titles with
    | Some titles => title ← lift (list_getitem titles i);
                     emit (SetTitle ax title)
    | None => mret tt
    end.

(** The body of the loop of [plot_spatio_temporal_facet], for the index [i]
    and the axes [ax]. *)
Definition plot_spatio_temporal_facet_cell (trjs : ndarray)
    (vlim : float * float) (titles : option (list string))
    (domain_extent : option float) (dt : option float) (include_init : bool)
    (num_subplots i ax : nat) : run unit :=
  single_trj ← getitem_recorded trjs i;
  _ ← plot_spatio_temporal single_trj vlim (Some ax) domain_extent dt
        include_init;
  remove_or_title titles num_subplots i ax.

Definition plot_spatio_temporal_facet (trjs : ndarray)
    (facet_over_channels : bool) (vlim : float * float) (grid : nat * nat)
    (titles : option (list string)) (domain_extent : option float)
    (dt : option float) (include_init : bool) : run unit :=
  _ ← (if facet_over_channels then
         if decide (ndim trjs <> 3%nat)
         then raise (ValueError "trjs must be a three-axis array.")
         else mret tt
       else
         if decide (ndim trjs <> 4%nat)
         then raise (ValueError "trjs must be a four-axis array.")
         else mret tt);
  ax_s ← subplots grid.1 grid.2;
  trjs ← (if facet_over_channels then
            trjs ← lift (swapaxes01 trjs);
            lift (new_axis2 trjs)
          else mret trjs);
  let num_subplots := shape_at trjs 0 in
  flat ← flatten ax_s;
  for_enumerate
    (plot_spatio_temporal_facet_cell trjs vlim titles domain_extent dt
       include_init num_subplots)
    0 flat.

Definition plot_state_2d (state : ndarray) (vlim : float * float)
    (domain_extent : option float) (ax : option nat) : run unit :=
  if decide (ndim state <> 3%nat) then
    raise (ValueError "state must be a three-axis array.")
  else
    let space_range : number * number :=
      match domain_extent with
      | Some domain_extent => (Int 0, Float domain_extent)
      | None => (Int 0, Int (Z.of_nat (List.last (shape state) 0%nat)))
      end in
    let state_wrapped := wrap_bc state in
    ax ← axes_or_new ax;
    _ ← imshow ax (transpose state_wrapped) vlim.1 vlim.2
          (space_range.1, space_range.2, space_range.1, space_range.2);
    _ ← emit (SetXLabel ax "x_0");
    _ ← emit (SetYLabel ax "x_1");
    emit (SetAspect ax "equal").

(** The body of the loop of [plot_state_2d_facet], for the index [i] and
    the axes [ax]. *)
Definition plot_state_2d_facet_cell (states : ndarray)
    (vlim : float * float) (titles : option (list string))
    (domain_extent : option float) (num_subplots i ax : nat) : run unit :=
  state ← getitem_recorded states i;
  _ ← plot_state_2d state vlim domain_extent (Some ax);
  remove_or_title titles num_subplots i ax.

Definition plot_state_2d_facet (states : ndarray)
    (facet_over_channels : bool) (vlim : float * float) (grid : nat * nat)
    (titles : option (list string)) (domain_extent : option float)
    : run unit :=
  _ ← (if facet_over_channels then
         if decide (ndim states <> 3%nat)
         then raise (ValueError "states must be a three-axis array.")
         else mret tt
       else
         if decide (ndim states <> 4%nat)
         then raise (ValueError "states must be a four-axis array.")
         else mret tt);
  ax_s ← subplots grid.1 grid.2;
  let num_subplots := shape_at states 0 in
  flat ← flatten ax_s;
  for_enumerate
    (plot_state_2d_facet_cell states vlim titles domain_extent num_subplots)
    0 flat.


(** A stretch of a trace in which no axes are removed and no index is past
    the end. *)
Definition quiet (tr : list event) : Prop :=
  Forall (fun e => is_remove e = false) tr
  /\ Forall (fun e => is_past_the_end e = false) tr.

(** The titles, when given, reach as far as the leading axis. *)
Definition titles_cover (titles : option (list string)) (n : nat) : Prop :=
  match titles with
  | None => True
  | Some titles => (n <= length titles)%nat
  end.

(** An array for the examples: the entry at a multi-index is the sum of the
    indices. *)
Definition ramp (l : library) (shape : list nat) : ndarray :=
  {| lib := l; shape := shape;
     entry := fun idx => float_of_nat (foldr Nat.add 0%nat idx) |}.

End Viz.

(** ** [exponax.viz._plot]: the line plots

    [plot_state_1d] and its facet draw lines instead of images.  Their runs
    record the calls of the image routines ([Common]) and the calls that only
    the line plots make; a call that matplotlib refuses raises and is not
    recorded. *)

Module Viz1d.

Inductive event : Type :=
| Common (e : Viz.event)
| Plot (ax : nat) (x y : Viz.ndarray) (label : option (list string))
| SetYLim (ax : nat) (vlim : float * float)
| Grid (ax : nat)
| Legend (ax : nat).

Record run (A : Type) : Type := Run {
  trace : list event;
  outcome : result A;
}.
Arguments Run {A} trace outcome.
Arguments trace {A} r.
Arguments outcome {A} r.

Definition run_ret {A : Type} (a : A) : run A := Run [] (Ok a).

Definition run_bind {A B : Type} (m : run A) (k : A -> run B) : run B :=
  match outcome m with
  | Ok a => Run (trace m ++ trace (k a)) (outcome (k a))
  | Raise e => Run (trace m) (Raise e)
  end.

Definition emit (e : event) : run unit := Run [e] (Ok tt).
Definition raise {A : Type} (e : exn) : run A := Run [] (Raise e).
Definition lift {A : Type} (r : result A) : run A := Run [] r.

(** A run of the image routines, as a run of the line plots. *)
Definition common {A : Type} (m : Viz.run A) : run A :=
  Run (map Common (Viz.trace m)) (Viz.outcome m).

#[global] Instance run_mret : MRet run := @run_ret.
#[global] Instance run_mbind : MBind run := fun A B k m => run_bind m k.

Fixpoint for_enumerate {A : Type} (body : nat -> A -> run unit)
    (i : nat) (xs : list A) : run unit :=
  match xs with
  | [] => run_ret tt
  | x :: xs' => run_bind (body i x) (fun _ => for_enumerate body (S i) xs')
  end.

(** The attribute [method] of the variable [ax], which holds an axes object
    or [None]. *)
Definition axes_method (ax : option nat) (method : string) : run nat :=
  match ax with
  | Some ax => run_ret ax
  | None =>
      raise (AttributeError
               ("'NoneType' object has no attribute '" +:+ method +:+ "'"))
  end.

(** The call [ax.method(...)] whose arguments need no evaluation. *)
Definition on_axes (ax : option nat) (method : string) (call : nat -> event)
    : run unit :=
  run_bind (axes_method ax method) (fun ax => emit (call ax)).

(** The shape [ax.plot] reads off an argument: a scalar counts as an array
    of one entry. *)
Definition plot_shape (a : Viz.ndarray) : list nat :=
  match Viz.shape a with
  | [] => [1%nat]
  | s => s
  end.

(** The number of columns of an argument of [ax.plot]: an array of one axis
    is one column. *)
Definition columns (a : Viz.ndarray) : nat :=
  match plot_shape a with
  | [_; n] => n
  | _ => 1%nat
  end.

(** [ax.plot(x, y, label=label)]: the columns of [y] against those of [x].
    The first axes have to agree, no argument may have more than two axes,
    and two arguments of several columns each need the same number of them;
    without columns there is nothing to draw.  A list of labels for two or
    more columns needs one label for each.  Otherwise matplotlib raises
    [ValueError] (its messages go on to name the shapes and the numbers). *)
Definition plot (ax : nat) (x y : Viz.ndarray) (label : option (list string))
    : run unit :=
  if decide (hd 0%nat (plot_shape x) <> hd 0%nat (plot_shape y)) then
    raise (ValueError "x and y must have same first dimension")
  else if decide (2 < length (plot_shape x) \/ 2 < length (plot_shape y))%nat then
    raise (ValueError "x and y can be no greater than 2D")
  else
    let ncx := columns x in
    let ncy := columns y in
    if decide (1 < ncx /\ 1 < ncy /\ ncx <> ncy)%nat then
      raise (ValueError "x and y have different numbers of columns")
    else if decide (ncx = 0 \/ ncy = 0)%nat then
      emit (Plot ax x y label)
    else
      let n_datasets := max ncx ncy in
      match label with
      | Some labels =>
          if decide (1 < n_datasets /\ length labels <> n_datasets)%nat then
            raise (ValueError
                     "label must be scalar or have the same length as the input data")
          else emit (Plot ax x y label)
      | None => emit (Plot ax x y label)
      end.

(** The labels, when given, are one for each of the [C] channels, as the
    docstrings ask. *)
Definition labels_fit (labels : option (list string)) (C : nat) : Prop :=
  match labels with
  | None => True
  | Some labels => length labels = C
  end.

(** What [plot_state_1d] hands back: the figure, the axes and the lines, or
    the lines alone. *)
Inductive returned : Type :=
| FigAxLines (ax : option nat)
| Lines.

Section Defs.
(** [make_grid] of [exponax/_utils.py] (not among the sources): from the
    number of spatial dimensions, the domain extent, the number of points and
    the [full] flag to the array of the grid coordinates. *)
Variable make_grid : nat -> Viz.number -> nat -> bool -> Viz.ndarray.

Definition plot_state_1d (state : Viz.ndarray) (vlim : float * float)
    (domain_extent : option float) (labels : option (list string))
    (ax : option nat) (xlabel ylabel : string) : run returned :=
  if decide (Viz.ndim state <> 2%nat) then
    raise (ValueError "state must be a two-axis array.")
  else
    let state_wrapped := Viz.wrap_bc state in
    let num_points := List.last (Viz.shape state) 0%nat in
    let domain_extent : Viz.number :=
      match domain_extent with
      | None => Viz.Int (Z.of_nat num_points)
      | Some domain_extent => Viz.Float domain_extent
      end in
    let grid := make_grid 1 domain_extent num_points true in
    ax ← match ax with
         | None => ax ← common (Viz.axes_or_new None); mret (Some ax)
         | Some _ => mret ax
         end;
    a ← axes_method ax "plot";
    grid0 ← lift (Viz.getitem grid 0);
    _ ← plot a grid0 (Viz.transpose state_wrapped) labels;
    _ ← on_axes ax "set_ylim" (fun ax => SetYLim ax vlim);
    _ ← on_axes ax "grid" Grid;
    _ ← match labels with
        | Some _ => on_axes ax "legend" Legend
        | None => mret tt
        end;
    _ ← on_axes ax "set_xlabel" (fun ax => Common (Viz.SetXLabel ax xlabel));
    _ ← on_axes ax "set_ylabel" (fun ax => Common (Viz.SetYLabel ax ylabel));
    match ax with
    | None => mret (FigAxLines ax)
    | Some _ => mret Lines
    end.

(** The body of the loop of [plot_state_1d_facet], for the index [i] and the
    axes [ax]. *)
Definition plot_state_1d_facet_cell (states : Viz.ndarray)
    (vlim : float * float) (labels titles : option (list string))
    (domain_extent : option float) (num_batches i ax : nat) : run unit :=
  if decide (i < num_batches)%nat then
    state ← common (Viz.getitem_recorded states i);
    _ ← plot_state_1d state vlim domain_extent labels (Some ax) "Space" "Value";
    match titles with
    | Some titles => title ← lift (list_getitem titles i);
                     emit (Common (Viz.SetTitle ax title))
    | None => mret tt
    end
  else emit (Common (Viz.Remove ax)).

Definition plot_state_1d_facet (states : Viz.ndarray) (vlim : float * float)
    (labels titles : option (list string)) (domain_extent : option float)
    (grid : nat * nat) : run unit :=
  if decide (Viz.ndim states <> 3%nat) then
    raise (ValueError "states must be a three-axis array.")
  else
    ax_s ← common (Viz.subplots grid.1 grid.2);
    let num_batches := Viz.shape_at states 0 in
    flat ← common (Viz.flatten ax_s);
    for_enumerate
      (plot_state_1d_facet_cell states vlim labels titles domain_extent
         num_batches)
      0 flat.
End Defs.

(** The axes removed in a run, and the axes a line plot was drawn on, in
    program order. *)
Definition removed (tr : list event) : list nat :=
  omap (fun e => match e with Common (Viz.Remove ax) => Some ax | _ => None end) tr.

Definition plotted (tr : list event) : list nat :=
  omap (fun e => match e with Plot ax _ _ _ => Some ax | _ => None end) tr.

(** The index operations of a run, each with the size of the axis. *)
Definition indexed (tr : list event) : list (nat * nat) :=
  omap (fun e => match e with
                 | Common (Viz.GetItem i size) => Some (i, size)
                 | _ => None
                 end) tr.

(** A grid for the examples: [num_points + 1] coordinates when [full]. *)
Definition sample_grid (D : nat) (domain_extent : Viz.number)
    (num_points : nat) (full : bool) : Viz.ndarray :=
  Viz.ramp Viz.Jax [D; if full then S num_points else num_points].

End Viz1d.

(** ** Reading a run of the image routines *)

Module VizTrace.

(** The axes removed in a run, the axes an image was drawn on, and the index
    operations with the size of the axis, each in program order. *)
Definition removed (tr : list Viz.event) : list nat :=
  omap (fun e => match e with Viz.Remove ax => Some ax | _ => None end) tr.

Definition shown (tr : list Viz.event) : list nat :=
  omap (fun e => match e with Viz.Imshow ax _ _ _ _ => Some ax | _ => None end) tr.

Definition indexed (tr : list Viz.event) : list (nat * nat) :=
  omap (fun e => match e with Viz.GetItem i size => Some (i, size) | _ => None end) tr.

Definition titled (tr : list Viz.event) : list (nat * string) :=
  omap (fun e => match e with Viz.SetTitle ax t => Some (ax, t) | _ => None end) tr.

(** The images drawn in a run, each with its axes. *)
Definition images (tr : list Viz.event) : list (nat * Viz.ndarray) :=
  omap (fun e => match e with
                 | Viz.Imshow ax image _ _ _ => Some (ax, image)
                 | _ => None
                 end) tr.

(** The loop body the image facets share: index the input, plot the entry on
    the axes, then check the bounds.  [plot] is the routine of the facet. *)
Definition facet_cell (plot : Viz.ndarray -> nat -> Viz.run unit)
    (a : Viz.ndarray) (titles : option (list string))
    (num_subplots i ax : nat) : Viz.run unit :=
  Viz.run_bind (Viz.getitem_recorded a i)
    (fun entry =>
       Viz.run_bind (plot entry ax)
         (fun _ => Viz.remove_or_title titles num_subplots i ax)).

(** The image [plot_state_2d] draws of a state, and the image
    [plot_spatio_temporal] draws of a trajectory with a first channel. *)
Definition state_2d_image (state : Viz.ndarray) : Viz.ndarray :=
  Viz.transpose (Viz.wrap_bc state).

Definition spatio_temporal_image (trj : Viz.ndarray) : Viz.ndarray :=
  match Viz.vmap Viz.wrap_bc trj with
  | Ok trj_wrapped =>
      match Viz.channel0 trj_wrapped with
      | Ok channel => Viz.transpose channel
      | Raise _ => trj
      end
  | Raise _ => trj
  end.

(** The array [plot_spatio_temporal_facet] indexes when it facets over the
    channels of [trjs], of shape [(T, C, N)]: the axes swapped and a channel
    axis of size one put in. *)
Definition channels_first (trjs : Viz.ndarray) : Viz.ndarray :=
  match Viz.swapaxes01 trjs with
  | Ok swapped =>
      match Viz.new_axis2 swapped with
      | Ok trjs' => trjs'
      | Raise _ => trjs
      end
  | Raise _ => trjs
  end.

End VizTrace.

(** * Properties *)

(** ** Sanity checks of the scalar instances *)

Example Z_of_float_5 : Z_of_float 5.75 = 5%Z.
Proof. vm_compute. reflexivity. Qed.
Example Z_of_float_m3 : Z_of_float (-3)%float = (-3)%Z.
Proof. vm_compute. reflexivity. Qed.
Example Z_of_float_0 : Z_of_float 0 = 0%Z.
Proof. vm_compute. reflexivity. Qed.

(** ** Broadcasting the dealiasing mask *)

Section MaskLemmas.
Context {A : Type} `{Scalar A}.

Lemma mask_mul_row_conforming (mask : list bool) (row : list A) :
  length row = length mask ->
  mask_mul_row mask row = Ok (mask_apply mask row).
Proof.
  intros Hlen. unfold mask_mul_row.
  destruct (decide (length row = length mask)) as [_|Hne]; [reflexivity|].
  contradiction.
Qed.





Lemma mask_mul_cons (mask : list bool) (row : list A) (arr : array A) :
  mask_mul mask (row :: arr)
  = Py.bind (mask_mul_row mask row)
      (fun y => Py.bind (mask_mul mask arr) (fun k => Ok (y :: k))).
Proof. reflexivity. Qed.

Lemma mask_mul_conforming (mask : list bool) (arr : array A) :
  Forall (fun row => length row = length mask) arr ->
  mask_mul mask arr = Ok (map (mask_apply mask) arr).
Proof.
  induction 1 as [|row arr Hrow _ IH]; [reflexivity|].
  rewrite mask_mul_cons, (mask_mul_row_conforming _ _ Hrow), IH.
  reflexivity.
Qed.

Lemma mask_mul_inv (mask : list bool) (arr out : array A) :
  mask_mul mask arr = Ok out ->
  Forall2 (fun row y => mask_mul_row mask row = Ok y) arr out.
Proof.
  revert out. induction arr as [|row arr IH]; intros out.
  - intros Heq. inversion Heq. constructor.
  - rewrite mask_mul_cons.
    destruct (mask_mul_row mask row) as [y|e] eqn:Hrow; [|discriminate].
    destruct (mask_mul mask arr) as [k|e] eqn:Harr; [|discriminate].
    intros Heq. inversion Heq; subst out.
    constructor; [exact Hrow | apply IH; reflexivity].
Qed.

Lemma mask_mul_of_rows (mask : list bool) (arr out : array A) :
  Forall2 (fun row y => mask_mul_row mask row = Ok y) arr out ->
  mask_mul mask arr = Ok out.
Proof.
  induction 1 as [|row y arr out Hrow _ IH]; [reflexivity|].
  rewrite mask_mul_cons, Hrow, IH. reflexivity.
Qed.

Lemma mask_apply_length (mask : list bool) (row : list A) :
  length row = length mask ->
  length (mask_apply mask row) = length mask.
Proof.
  intros Hlen. unfold mask_apply. rewrite length_zip_with. lia.
Qed.

Lemma mask_apply_lookup (mask : list bool) (row : list A) (k : nat) :
  mask_apply mask row !! k
  = m ← mask !! k; x ← row !! k; Some (of_bool m * x)%S.
Proof.
  unfold mask_apply. rewrite lookup_zip_with.
  destruct (mask !! k); [|reflexivity].
  destruct (row !! k); reflexivity.
Qed.

(** Where exact arithmetic holds, masking a masked row changes nothing. *)
Lemma mask_apply_idempotent (mask : list bool) (row : list A) :
  (forall x : A, (sone * x)%S = x) ->
  (forall x : A, (szero * x)%S = szero) ->
  mask_apply mask (mask_apply mask row) = mask_apply mask row.
Proof.
  intros one_l zero_l. unfold mask_apply.
  revert row. induction mask as [|m mask IH]; intros [|x row];
    try reflexivity.
  cbn [zip_with]. f_equal; [|apply IH].
  destruct m; cbn [of_bool].
  - rewrite one_l. reflexivity.
  - rewrite !zero_l. reflexivity.
Qed.

Lemma of_bool_mul_idempotent (m : bool) (x : A) :
  (forall x : A, (sone * x)%S = x) ->
  (forall x : A, (szero * x)%S = szero) ->
  (of_bool m * (of_bool m * x))%S = (of_bool m * x)%S.
Proof.
  intros one_l zero_l. destruct m; cbn [of_bool].
  - rewrite one_l. reflexivity.
  - rewrite !zero_l. reflexivity.
Qed.

(** Where exact arithmetic holds, a row of a product is a fixed point of the
    mask, stretched or not. *)
Lemma mask_mul_row_fixed_point (mask : list bool) (row out : list A) :
  (forall x : A, (sone * x)%S = x) ->
  (forall x : A, (szero * x)%S = szero) ->
  mask_mul_row mask row = Ok out -> mask_mul_row mask out = Ok out.
Proof.
  intros one_l zero_l Heq.
  revert Heq. unfold mask_mul_row at 1.
  destruct (decide (length row = length mask)) as [Hlen|Hne].
  - intros Heq. injection Heq as <-.
    rewrite mask_mul_row_conforming
      by (apply mask_apply_length, Hlen).
    rewrite mask_apply_idempotent by assumption. reflexivity.
  - destruct mask as [|m [|m' mask]].
    + destruct row as [|x [|x' row]]; [contradiction| |discriminate].
      intros Heq. injection Heq as <-. reflexivity.
    + intros Heq. injection Heq as <-. unfold mask_mul_row.
      rewrite length_map.
      destruct (decide (length row = length [m])) as [Hlen|_];
        [contradiction|].
      f_equal. rewrite <- list_fmap_compose. apply list_fmap_ext.
      intros _ x _. cbn. apply of_bool_mul_idempotent; assumption.
    + destruct row as [|x [|x' row]]; try discriminate.
      intros Heq. injection Heq as <-.
      change ((of_bool m * x)%S :: (of_bool m' * x)%S
              :: map (fun m0 => (of_bool m0 * x)%S) mask)
        with (map (fun m0 => (of_bool m0 * x)%S) (m :: m' :: mask)).
      rewrite mask_mul_row_conforming by (rewrite length_map; reflexivity).
      f_equal. unfold mask_apply.
      generalize (m :: m' :: mask). intros ms.
      induction ms as [|m0 ms IH]; [reflexivity|].
      cbn. f_equal; [apply of_bool_mul_idempotent; assumption | exact IH].
Qed.
End MaskLemmas.

(** ** The Belousov-Zhabotinsky evaluator *)

(** C1. Constructing [BelousovZhabotinskyNonlinearFun] with a channel count
    other than 3 raises [ValueError], whatever the other arguments are and
    before the base class is initialised (no mask is built, no evaluator
    exists on which a step could run); with 3 channels the construction
    succeeds and returns the evaluator of the base class. *)
Theorem BelousovZhabotinskyNonlinearFun_init_channels
    {C : Type} (low_pass_mask : Z -> Z -> float -> list bool)
    (num_spatial_dims num_points num_channels : Z)
    (derivative_operator : array C) (dealiasing_fraction : float) :
  (num_channels <> 3%Z ->
   BelousovZhabotinskyNonlinearFun.__init__ low_pass_mask
     num_spatial_dims num_points num_channels
     derivative_operator dealiasing_fraction
   = Raise (ValueError ("Expected num_channels = 3, got "
                        +:+ str_of_int num_channels +:+ ".")))
  /\
  (num_channels = 3%Z ->
   exists self,
     BelousovZhabotinskyNonlinearFun.__init__ low_pass_mask
       num_spatial_dims num_points num_channels
       derivative_operator dealiasing_fraction = Ok self
     /\ BaseNonlinearFun.num_channels self = 3%Z
     /\ BaseNonlinearFun.dealiasing_mask self
        = low_pass_mask num_spatial_dims num_points dealiasing_fraction).
Proof.
  unfold BelousovZhabotinskyNonlinearFun.__init__. split; intros Hn.
  - destruct (decide (num_channels <> 3%Z)) as [_|Heq]; [reflexivity|].
    contradiction.
  - destruct (decide (num_channels <> 3%Z)) as [Hne|_]; [contradiction|].
    eexists. split; [reflexivity|]. split; [exact Hn | reflexivity].
Qed.

(** The message of the error names the rejected channel count. *)
Example BelousovZhabotinskyNonlinearFun_init_one_channel :
  BelousovZhabotinskyNonlinearFun.__init__ (C := Z)
    (fun _ _ _ => [true; true; false]) 1 4 1 [[0; 1; 2]]%Z 0.5%float
  = Raise (ValueError "Expected num_channels = 3, got 1.").
Proof. vm_compute. reflexivity. Qed.

(** The preset always asks for three channels, so its evaluator is built. *)
Lemma BelousovZhabotinsky_build_nonlinear_fun_ok
    {C : Type} (low_pass_mask : Z -> Z -> float -> list bool)
    (num_spatial_dims : Z) (domain_extent : float) (num_points : Z) (dt : float)
    (kw : BelousovZhabotinsky.kwargs) (derivative_operator : array C) :
  is_ok (BelousovZhabotinsky._build_nonlinear_fun low_pass_mask
           (BelousovZhabotinsky.__init__ num_spatial_dims domain_extent
              num_points dt kw)
           derivative_operator) = true.
Proof. reflexivity. Qed.


(** Whenever the product is defined at all, it is a fixed point of the mask. *)
Lemma mask_mul_fixed_point
    {C : Type} `{Scalar C}
    (one_l : forall x : C, (sone * x)%S = x)
    (zero_l : forall x : C, (szero * x)%S = szero)
    (mask : list bool) (u_hat once : array C) :
  mask_mul mask u_hat = Ok once -> mask_mul mask once = Ok once.
Proof.
  intros Hmul. apply mask_mul_inv in Hmul.
  apply mask_mul_of_rows.
  induction Hmul as [|row y arr out Hrow _ IH]; constructor; [|exact IH].
  apply (mask_mul_row_fixed_point mask row y one_l zero_l Hrow).
Qed.




(** Channel arithmetic on whole rows is the reaction map at every point. *)
Section ChannelArithmetic.
Context {R : Type} `{Scalar R}.

Lemma bz_rows_pointwise (u0 u1 u2 : list R) :
  length u0 = length u1 -> length u1 = length u2 ->
  [ row_sub (row_sub (row_add u0 u1) (row_mul u0 u1)) (row_pow u0 2);
    row_sub (row_sub u2 u1) (row_mul u0 u1);
    row_sub u0 u2 ]
  = pointwise3 bz_reaction u0 u1 u2.
Proof.
  unfold pointwise3, row_sub, row_add, row_mul, row_pow.
  revert u1 u2.
  induction u0 as [|a u0 IH]; intros [|b u1] [|c u2] H01 H12;
    try discriminate; [reflexivity|].
  injection H01 as H01. injection H12 as H12.
  specialize (IH u1 u2 H01 H12).
  injection IH as IH0 IH1 IH2.
  cbn. rewrite IH0, IH1, IH2. reflexivity.
Qed.

Lemma pointwise3_lookup (f : R * R * R -> R * R * R) (u0 u1 u2 : list R)
    (x : nat) (a b c : R) :
  u0 !! x = Some a -> u1 !! x = Some b -> u2 !! x = Some c ->
  pointwise3 f u0 u1 u2 !! 0%nat ≫= (.!! x) = Some (f (a, b, c)).1.1
  /\ pointwise3 f u0 u1 u2 !! 1%nat ≫= (.!! x) = Some (f (a, b, c)).1.2
  /\ pointwise3 f u0 u1 u2 !! 2%nat ≫= (.!! x) = Some (f (a, b, c)).2.
Proof.
  intros H0' H1' H2'. unfold pointwise3. cbn.
  rewrite !list_lookup_fmap.
  assert (zip (zip u0 u1) u2 !! x = Some (a, b, c)) as ->.
  { rewrite !lookup_zip_with, H0', H1', H2'. reflexivity. }
  cbn. auto.
Qed.
End ChannelArithmetic.

(** C3. On a three-channel Fourier-space input of the mask's shape,
    [evaluate] is the mandatory sequence and nothing else: every channel is
    multiplied by the dealiasing mask, transformed to physical space, the
    reaction map [(u0 + u1 - u0*u1 - u0^2, u2 - u1 - u0*u1, u0 - u2)] is
    applied at every grid point, and each of the three resulting channels is
    transformed back.  The inverse transform returns its channels on one
    common grid. *)
Theorem BelousovZhabotinskyNonlinearFun_evaluate_sequence
    {R C : Type} `{Scalar R} `{Scalar C} `{FFT R C}
    (self : BelousovZhabotinskyNonlinearFun.t (C := C)) (h0 h1 h2 : list C) :
  let mask := BaseNonlinearFun.dealiasing_mask self in
  let D := BaseNonlinearFun.num_spatial_dims self in
  let N := BaseNonlinearFun.num_points self in
  let u0 := irfftn D N (mask_apply mask h0) in
  let u1 := irfftn D N (mask_apply mask h1) in
  let u2 := irfftn D N (mask_apply mask h2) in
  Forall (fun row => length row = length mask) [h0; h1; h2] ->
  length u0 = length u1 -> length u1 = length u2 ->
  BelousovZhabotinskyNonlinearFun.evaluate (R := R) self [h0; h1; h2]
  = Ok (map (rfftn D) (pointwise3 bz_reaction u0 u1 u2))
  /\ BelousovZhabotinskyNonlinearFun.evaluate (R := R) self [h0; h1; h2]
     = mandatory_sequence3 mask D N bz_reaction h0 h1 h2.
Proof.
  intros mask D N u0 u1 u2 conforming H01 H12.
  unfold BelousovZhabotinskyNonlinearFun.evaluate, mandatory_sequence3.
  fold mask D N.
  rewrite (mask_mul_conforming mask _ conforming).
  cbn [mbind result_bind Py.bind map].
  fold u0 u1 u2.
  rewrite <- (bz_rows_pointwise u0 u1 u2 H01 H12).
  split; reflexivity.
Qed.

Lemma BelousovZhabotinskyNonlinearFun_evaluate_sequence_witness :
  BelousovZhabotinskyNonlinearFun.evaluate (R := Z) (H1 := identity_FFT)
    (BaseNonlinearFun.__init__ (C := Z)
       (fun _ _ _ => [true; false]) 1 2 3 [[0; 1]]%Z 0.5%float)
    [[1; 2]; [3; 4]; [5; 6]]%Z
  = Ok [[0; 0]; [-1; 0]; [-4; 0]]%Z.
Proof.
  destruct (BelousovZhabotinskyNonlinearFun_evaluate_sequence
              (R := Z) (H1 := identity_FFT)
              (BaseNonlinearFun.__init__ (C := Z) (fun _ _ _ => [true; false])
                 1 2 3 [[0; 1]]%Z 0.5%float)
              [1; 2] [3; 4] [5; 6])%Z as [Heval _].
  - repeat constructor.
  - reflexivity.
  - reflexivity.
  - rewrite Heval. vm_compute. reflexivity.
Defined.

(** ** The Laplace operator *)

Section Laplace.
Context {C : Type} `{Scalar C}.

Lemma build_laplace_operator_one_row (derivative_operator : array C) (order : nat) :
  exists row, build_laplace_operator derivative_operator order = [row].
Proof.
  unfold build_laplace_operator, sum_axis0_keepdims.
  destruct (array_pow derivative_operator order); eauto.
Qed.

Lemma foldl_zip_with_lookup (rs : array C) (r : list C) (k : nat)
    (x : C) (xs : list C) :
  r !! k = Some x ->
  Forall2 (fun row y => row !! k = Some y) rs xs ->
  foldl (zip_with sadd) r rs !! k = Some (foldl sadd x xs).
Proof.
  intros Hr Hrs. revert r x Hr.
  induction Hrs as [|row y rs xs Hrow _ IH]; intros r x Hr; [exact Hr|].
  cbn [foldl]. apply IH.
  rewrite lookup_zip_with, Hr, Hrow. reflexivity.
Qed.

(** At the mode [k], the operator of order 2 is the sum over the axes of the
    squared entries of the derivative operator. *)
Lemma build_laplace_operator_mode (r : list C) (rs : array C) (k : nat)
    (x : C) (xs : list C) :
  r !! k = Some x ->
  Forall2 (fun row y => row !! k = Some y) rs xs ->
  build_laplace_operator (r :: rs) 2 !! 0%nat ≫= (.!! k)
  = Some (foldl sadd (x * x)%S (map (fun y => (y * y)%S) xs)).
Proof.
  intros Hr Hrs. unfold build_laplace_operator, array_pow.
  cbn [map sum_axis0_keepdims lookup list_lookup mbind option_bind].
  apply foldl_zip_with_lookup.
  - rewrite list_lookup_fmap, Hr. reflexivity.
  - apply Forall2_fmap. eapply Forall2_impl; [exact Hrs|].
    intros row y Hrow. cbn. rewrite list_lookup_fmap, Hrow. reflexivity.
Qed.

Lemma lookup_map_map {B : Type} (f : C -> B) (arr : list (list C)) (c k : nat) :
  map (map f) arr !! c ≫= (.!! k) = f <$> (arr !! c ≫= (.!! k)).
Proof.
  rewrite list_lookup_fmap.
  destruct (arr !! c) as [row|]; [|reflexivity].
  cbn. apply list_lookup_fmap.
Qed.
End Laplace.

Example build_laplace_operator_2d :
  build_laplace_operator [[0; 1; 2]; [3; 4; 5]]%Z 2 = [[9; 17; 29]]%Z.
Proof. reflexivity. Qed.

(** ** The presets *)

(** C4. For every derivative operator, the linear operator of the Allen-Cahn
    preset has the shape of the Laplace operator of order 2 built from the
    derivative operator and equals, at every Fourier mode, the diffusivity
    times that Laplace operator plus the first-order reaction coefficient. *)
Theorem AllenCahn_build_linear_operator_per_mode
    {C : Type} `{Scalar C} (self : AllenCahn.t) (derivative_operator : array C) :
  let laplace := build_laplace_operator derivative_operator 2 in
  let linear_operator := AllenCahn._build_linear_operator self derivative_operator in
  length linear_operator = length laplace
  /\ forall c k : nat,
       linear_operator !! c ≫= (.!! k)
       = (fun l => (of_float (AllenCahn.diffusivity self) * l
                    + of_float (AllenCahn.first_order_coefficient self))%S)
         <$> (laplace !! c ≫= (.!! k)).
Proof.
  intros laplace linear_operator.
  unfold linear_operator, AllenCahn._build_linear_operator,
    array_add_float, float_mul_array.
  fold laplace. split.
  - rewrite !length_map. reflexivity.
  - intros c k. unfold array in *. rewrite !lookup_map_map.
    destruct (laplace !! c ≫= (.!! k)); reflexivity.
Qed.

Example AllenCahn_linear_operator_integers :
  AllenCahn._build_linear_operator
    (AllenCahn.__init__ 1 1 4 1
       {| AllenCahn.kw_diffusivity := Some 3%float;
          AllenCahn.kw_first_order_coefficient := Some 1%float;
          AllenCahn.kw_third_order_coefficient := None;
          AllenCahn.kw_order := None;
          AllenCahn.kw_dealiasing_fraction := None;
          AllenCahn.kw_num_circle_points := None;
          AllenCahn.kw_circle_radius := None |})
    [[0; 1; 2]; [3; 4; 5]]%Z
  = [[28; 52; 88]]%Z.
Proof. vm_compute. reflexivity. Qed.

(** On complex128 numbers, with the defaults of the preset and the
    derivative operator [i * k] for the wavenumbers 0, 1, 2. *)
Example AllenCahn_linear_operator_complex128 :
  AllenCahn._build_linear_operator (C := complex128)
    (AllenCahn.__init__ 1 1 4 0.01 AllenCahn.no_kwargs)
    [[(0, 0); (0, 1); (0, 2)]]%float
  = [[(1, 0); (0.995, 0); (0.97999999999999998, 0)]]%float.
Proof. vm_compute. reflexivity. Qed.

(** C5. The Fisher-KPP preset puts the linear reaction term into its linear
    operator, which is the Laplace operator of order 2 plus [r] at every
    Fourier mode, and builds a polynomial evaluator with the coefficient list
    [[0, 0, -r]]: over exact arithmetic the pointwise map of that evaluator
    is [-r * u^2], with no constant and no linear term. *)
Theorem FisherKPP_linear_and_nonlinear_split
    {R C : Type} `{Scalar R} `{Scalar C} `{FFT R C}
    (low_pass_mask : Z -> Z -> float -> list bool)
    (zero_mul : forall x : R, (of_float 0 * x)%S = szero)
    (zero_add : forall x : R, (szero + x)%S = x)
    (self : FisherKPP.t) (derivative_operator : array C) :
  let laplace := build_laplace_operator derivative_operator 2 in
  let linear_operator := FisherKPP._build_linear_operator self derivative_operator in
  let nonlinear_fun :=
    FisherKPP._build_nonlinear_fun low_pass_mask self derivative_operator in
  (length linear_operator = length laplace
   /\ forall c k : nat,
        linear_operator !! c ≫= (.!! k)
        = (fun l => (l + of_float (FisherKPP.r self))%S)
          <$> (laplace !! c ≫= (.!! k)))
  /\ PolynomialNonlinearFun.coefficients nonlinear_fun
     = [0; 0; - FisherKPP.r self]%float
  /\ forall u : R,
       PolynomialNonlinearFun.pointwise
         (PolynomialNonlinearFun.coefficients nonlinear_fun) u
       = (of_float (- FisherKPP.r self) * (u * u))%S.
Proof.
  intros laplace linear_operator nonlinear_fun. split; [split|split].
  - unfold linear_operator, FisherKPP._build_linear_operator, array_add_float.
    rewrite length_map. reflexivity.
  - intros c k.
    unfold linear_operator, FisherKPP._build_linear_operator, array_add_float.
    fold laplace. unfold array in *. apply lookup_map_map.
  - reflexivity.
  - intros u. unfold PolynomialNonlinearFun.pointwise. cbn.
    rewrite !zero_mul, !zero_add. reflexivity.
Qed.

Lemma Z_of_float_zero_mul (x : Z) : (of_float 0 * x)%S = szero.
Proof. change (Z_of_float 0 * x = 0)%Z. replace (Z_of_float 0) with 0%Z; [reflexivity|]. vm_compute. reflexivity. Qed.

Lemma Z_zero_add (x : Z) : (szero + x)%S = x.
Proof. reflexivity. Qed.

Lemma FisherKPP_linear_and_nonlinear_split_witness :
  let self := FisherKPP.__init__ 1 1 4 1 FisherKPP.no_kwargs in
  let nonlinear_fun :=
    FisherKPP._build_nonlinear_fun (C := Z)
      (fun _ _ _ => [true; true; false]) self [[0; 1; 2]]%Z in
  FisherKPP._build_linear_operator self [[0; 1; 2]]%Z = [[1; 2; 5]]%Z
  /\ PolynomialNonlinearFun.coefficients nonlinear_fun = [0; 0; -1]%float
  /\ PolynomialNonlinearFun.pointwise (R := Z)
       (PolynomialNonlinearFun.coefficients nonlinear_fun) 7%Z = (-49)%Z.
Proof.
  intros self nonlinear_fun.
  destruct (FisherKPP_linear_and_nonlinear_split
              (R := Z) (C := Z) (H1 := identity_FFT)
              (fun _ _ _ => [true; true; false])
              Z_of_float_zero_mul Z_zero_add
              self [[0; 1; 2]]%Z) as (_ & Hcoeff & Hpoint).
  subst nonlinear_fun.
  split; [vm_compute; reflexivity|]. split.
  - rewrite Hcoeff. reflexivity.
  - rewrite Hpoint. vm_compute. reflexivity.
Defined.

(** C6. For every derivative operator, the linear operator of the
    Belousov-Zhabotinsky preset has three channels, and its channel [c] is
    [diffusivities[c]] times the Laplace operator of order 2 at every Fourier
    mode, with nothing added.  The preset holds a diffusivity for each of the
    three channels. *)
Theorem BelousovZhabotinsky_build_linear_operator_per_channel
    {C : Type} `{Scalar C} (self : BelousovZhabotinsky.t)
    (derivative_operator : array C) (d0 d1 d2 : float) (more : list float) :
  BelousovZhabotinsky.diffusivities self = d0 :: d1 :: d2 :: more ->
  exists (laplace : list C) (linear_operator : array C),
    build_laplace_operator derivative_operator 2 = [laplace]
    /\ BelousovZhabotinsky._build_linear_operator self derivative_operator
       = Ok linear_operator
    /\ length linear_operator = 3%nat
    /\ forall (c : nat) (d : float),
         (c < 3)%nat ->
         BelousovZhabotinsky.diffusivities self !! c = Some d ->
         linear_operator !! c = Some (map (fun l => (of_float d * l)%S) laplace).
Proof.
  intros Hd.
  destruct (build_laplace_operator_one_row derivative_operator 2) as [laplace Hlap].
  exists laplace.
  unfold BelousovZhabotinsky._build_linear_operator. rewrite Hd, Hlap.
  eexists. split; [reflexivity|]. split; [reflexivity|]. split; [reflexivity|].
  intros c d Hc Hlook.
  destruct c as [|[|[|c]]]; [| | |lia];
    cbn in Hlook; injection Hlook as <-; reflexivity.
Qed.

Lemma BelousovZhabotinsky_build_linear_operator_per_channel_witness :
  BelousovZhabotinsky._build_linear_operator
    (BelousovZhabotinsky.__init__ 1 1 4 1
       {| BelousovZhabotinsky.kw_diffusivities := Some [2; 3; 5]%float;
          BelousovZhabotinsky.kw_order := None;
          BelousovZhabotinsky.kw_dealiasing_fraction := None;
          BelousovZhabotinsky.kw_num_circle_points := None;
          BelousovZhabotinsky.kw_circle_radius := None |})
    [[0; 1; 2]; [3; 4; 5]]%Z
  = Ok [[18; 34; 58]; [27; 51; 87]; [45; 85; 145]]%Z.
Proof.
  destruct (BelousovZhabotinsky_build_linear_operator_per_channel (C := Z)
              (BelousovZhabotinsky.__init__ 1 1 4 1
                 {| BelousovZhabotinsky.kw_diffusivities := Some [2; 3; 5]%float;
                    BelousovZhabotinsky.kw_order := None;
                    BelousovZhabotinsky.kw_dealiasing_fraction := None;
                    BelousovZhabotinsky.kw_num_circle_points := None;
                    BelousovZhabotinsky.kw_circle_radius := None |})
              [[0; 1; 2]; [3; 4; 5]]%Z 2%float 3%float 5%float [] eq_refl)
    as (laplace & linear_operator & Hlap & Hop & _ & Hchan).
  rewrite Hop. f_equal.
  injection Hlap as <-.
  pose proof (Hchan 0%nat 2%float ltac:(lia) eq_refl) as H0.
  pose proof (Hchan 1%nat 3%float ltac:(lia) eq_refl) as H1.
  pose proof (Hchan 2%nat 5%float ltac:(lia) eq_refl) as H2.
  destruct linear_operator as [|r0 [|r1 [|r2 [|]]]]; try discriminate.
  cbn in H0, H1, H2.
  injection H0 as ->. injection H1 as ->. injection H2 as ->.
  vm_compute. reflexivity.
Defined.

(** A preset with fewer than three diffusivities has no linear operator. *)
Example BelousovZhabotinsky_two_diffusivities :
  BelousovZhabotinsky._build_linear_operator (C := Z)
    (BelousovZhabotinsky.__init__ 1 1 4 1
       {| BelousovZhabotinsky.kw_diffusivities := Some [2; 3]%float;
          BelousovZhabotinsky.kw_order := None;
          BelousovZhabotinsky.kw_dealiasing_fraction := None;
          BelousovZhabotinsky.kw_num_circle_points := None;
          BelousovZhabotinsky.kw_circle_radius := None |})
    [[0; 1; 2]]%Z
  = Raise (IndexError "list index out of range").
Proof. vm_compute. reflexivity. Qed.

(** ** Construction parameters of the presets *)

Lemma float_two_thirds_not_half : (2 / 3)%float <> (1 / 2)%float.
Proof.
  intros Heq.
  assert (PrimFloat.eqb (2 / 3) (1 / 2) = PrimFloat.eqb (1 / 2) (1 / 2)) as Hb
    by (rewrite Heq; reflexivity).
  vm_compute in Hb. discriminate Hb.
Qed.

(** C2, as the code has it. The Allen-Cahn and the Belousov-Zhabotinsky
    presets default their dealiasing fraction to 1/2; the Fisher-KPP preset,
    whose nonlinear term [-r * u^2] is quadratic, defaults it to 2/3, which
    is not 1/2.  A fraction passed by the caller replaces the default. *)
Theorem presets_default_dealiasing_fraction
    (num_spatial_dims : Z) (domain_extent : float) (num_points : Z) (dt : float) :
  AllenCahn.dealiasing_fraction
    (AllenCahn.__init__ num_spatial_dims domain_extent num_points dt
       AllenCahn.no_kwargs) = 0.5%float
  /\ BelousovZhabotinsky.dealiasing_fraction
       (BelousovZhabotinsky.__init__ num_spatial_dims domain_extent num_points dt
          BelousovZhabotinsky.no_kwargs) = 0.5%float
  /\ FisherKPP.dealiasing_fraction
       (FisherKPP.__init__ num_spatial_dims domain_extent num_points dt
          FisherKPP.no_kwargs) = (2 / 3)%float
  /\ FisherKPP.dealiasing_fraction
       (FisherKPP.__init__ num_spatial_dims domain_extent num_points dt
          FisherKPP.no_kwargs) <> 0.5%float
  /\ (forall kw f, AllenCahn.kw_dealiasing_fraction kw = Some f ->
        AllenCahn.dealiasing_fraction
          (AllenCahn.__init__ num_spatial_dims domain_extent num_points dt kw) = f)
  /\ (forall kw f, FisherKPP.kw_dealiasing_fraction kw = Some f ->
        FisherKPP.dealiasing_fraction
          (FisherKPP.__init__ num_spatial_dims domain_extent num_points dt kw) = f)
  /\ (forall kw f, BelousovZhabotinsky.kw_dealiasing_fraction kw = Some f ->
        BelousovZhabotinsky.dealiasing_fraction
          (BelousovZhabotinsky.__init__ num_spatial_dims domain_extent
             num_points dt kw) = f).
Proof.
  repeat split.
  - exact float_two_thirds_not_half.
  - intros kw f Hkw. cbn. rewrite Hkw. reflexivity.
  - intros kw f Hkw. cbn. rewrite Hkw. reflexivity.
  - intros kw f Hkw. cbn. rewrite Hkw. reflexivity.
Qed.

(** C2, as stated, fails: not all three presets default to 1/2. *)
Lemma presets_default_dealiasing_fraction_not_all_half :
  ~ (AllenCahn.dealiasing_fraction
       (AllenCahn.__init__ 1 1 64 0.01 AllenCahn.no_kwargs) = (1 / 2)%float
     /\ FisherKPP.dealiasing_fraction
          (FisherKPP.__init__ 1 1 64 0.01 FisherKPP.no_kwargs) = (1 / 2)%float
     /\ BelousovZhabotinsky.dealiasing_fraction
          (BelousovZhabotinsky.__init__ 1 1 64 0.01
             BelousovZhabotinsky.no_kwargs) = (1 / 2)%float).
Proof.
  intros (_ & Hfisher & _). exact (float_two_thirds_not_half Hfisher).
Qed.

(** C7. Each preset constructor takes [num_circle_points] and
    [circle_radius] as keyword arguments, with the defaults 16 and 1.0, and
    hands the values it ends up with to the base stepper as they are. *)
Theorem presets_forward_circle_parameters
    (num_spatial_dims : Z) (domain_extent : float) (num_points : Z) (dt : float) :
  (forall kw : AllenCahn.kwargs,
     let base := AllenCahn.super
                   (AllenCahn.__init__ num_spatial_dims domain_extent num_points dt kw) in
     (forall n, AllenCahn.kw_num_circle_points kw = Some n ->
                BaseStepper.num_circle_points base = n)
     /\ (AllenCahn.kw_num_circle_points kw = None ->
         BaseStepper.num_circle_points base = 16%Z)
     /\ (forall x, AllenCahn.kw_circle_radius kw = Some x ->
                   BaseStepper.circle_radius base = x)
     /\ (AllenCahn.kw_circle_radius kw = None ->
         BaseStepper.circle_radius base = 1.0%float))
  /\ (forall kw : FisherKPP.kwargs,
     let base := FisherKPP.super
                   (FisherKPP.__init__ num_spatial_dims domain_extent num_points dt kw) in
     (forall n, FisherKPP.kw_num_circle_points kw = Some n ->
                BaseStepper.num_circle_points base = n)
     /\ (FisherKPP.kw_num_circle_points kw = None ->
         BaseStepper.num_circle_points base = 16%Z)
     /\ (forall x, FisherKPP.kw_circle_radius kw = Some x ->
                   BaseStepper.circle_radius base = x)
     /\ (FisherKPP.kw_circle_radius kw = None ->
         BaseStepper.circle_radius base = 1.0%float))
  /\ (forall kw : BelousovZhabotinsky.kwargs,
     let base := BelousovZhabotinsky.super
                   (BelousovZhabotinsky.__init__ num_spatial_dims domain_extent
                      num_points dt kw) in
     (forall n, BelousovZhabotinsky.kw_num_circle_points kw = Some n ->
                BaseStepper.num_circle_points base = n)
     /\ (BelousovZhabotinsky.kw_num_circle_points kw = None ->
         BaseStepper.num_circle_points base = 16%Z)
     /\ (forall x, BelousovZhabotinsky.kw_circle_radius kw = Some x ->
                   BaseStepper.circle_radius base = x)
     /\ (BelousovZhabotinsky.kw_circle_radius kw = None ->
         BaseStepper.circle_radius base = 1.0%float)).
Proof.
  repeat split; intros; cbn;
    match goal with Hkw : _ = _ |- _ => rewrite Hkw end; reflexivity.
Qed.

Example presets_forward_circle_parameters_defaults :
  let base := AllenCahn.super (AllenCahn.__init__ 1 1 64 0.01 AllenCahn.no_kwargs) in
  BaseStepper.num_circle_points base = 16%Z
  /\ BaseStepper.circle_radius base = 1%float
  /\ BaseStepper.num_channels base = 1%Z
  /\ BaseStepper.order base = 2%Z.
Proof. repeat split. Qed.

(** ** The plot routines *)

Section VizLemmas.
Import Viz.


Lemma run_bind_Run_ok {A B : Type} (tr : list event) (a : A) (k : A -> run B) :
  run_bind (Run tr (Ok a)) k = Run (tr ++ trace (k a)) (outcome (k a)).
Proof. reflexivity. Qed.


Lemma vmap_wrap_bc_shape (trj : ndarray) (T C N : nat) :
  shape trj = [T; C; N] ->
  exists trj_wrapped,
    vmap wrap_bc trj = Ok trj_wrapped
    /\ shape trj_wrapped = [T; C; S N].
Proof.
  intros Hshape. unfold vmap. rewrite Hshape.
  eexists. split; [reflexivity|]. reflexivity.
Qed.
End VizLemmas.

(** C10. In [plot_spatio_temporal] without a [domain_extent], the spatial
    range of the image extent runs from 0 to the size of axis 1 of the
    wrapped trajectory.  For a trajectory of shape [(T, C, N)] the wrapped
    one has shape [(T, C, N + 1)], so that size is the channel count [C]; the
    number of spatial points plus one sits on axis 2 and is not used. *)
Theorem plot_spatio_temporal_space_range_is_channel_count
    (trj : Viz.ndarray) (T C N : nat) (vlim : float * float) (ax : option nat)
    (dt : option float) (include_init : bool) :
  Viz.shape trj = [T; C; N] ->
  (0 < C)%nat ->
  exists trj_wrapped new_figure ax' image time_range,
    Viz.vmap Viz.wrap_bc trj = Ok trj_wrapped
    /\ Viz.shape trj_wrapped = [T; C; S N]
    /\ Viz.axes_or_new ax = Viz.Run new_figure (Ok ax')
    /\ Viz.plot_spatio_temporal trj vlim ax None dt include_init
       = Viz.Run
           (new_figure
            ++ [ Viz.Imshow ax' image vlim.1 vlim.2
                   (time_range.1, time_range.2,
                    Viz.Int 0, Viz.Int (Z.of_nat C));
                 Viz.SetXLabel ax' "Time";
                 Viz.SetYLabel ax' "Space" ])
           (Ok tt).
Proof.
  intros Hshape HC.
  destruct C as [|C']; [lia|].
  destruct trj as [l s e]. cbn in Hshape. subst s.
  destruct ax as [ax|];
    (eexists; eexists; eexists; eexists; eexists;
     split; [reflexivity|]; split; [reflexivity|]; split; [reflexivity|];
     unfold Viz.plot_spatio_temporal; cbn; reflexivity).
Qed.

Lemma plot_spatio_temporal_space_range_is_channel_count_witness :
  exists trj_wrapped new_figure ax' image time_range,
    Viz.vmap Viz.wrap_bc (Viz.ramp Viz.Jax [3; 1; 4]%nat) = Ok trj_wrapped
    /\ Viz.shape trj_wrapped = [3; 1; 5]%nat
    /\ Viz.axes_or_new None = Viz.Run new_figure (Ok ax')
    /\ Viz.plot_spatio_temporal (Viz.ramp Viz.Jax [3; 1; 4]%nat)
         (-1, 1)%float None None None false
       = Viz.Run
           (new_figure
            ++ [ Viz.Imshow ax' image (-1) 1
                   (time_range.1, time_range.2, Viz.Int 0, Viz.Int 1);
                 Viz.SetXLabel ax' "Time";
                 Viz.SetYLabel ax' "Space" ])
           (Ok tt).
Proof.
  apply (plot_spatio_temporal_space_range_is_channel_count
           (Viz.ramp Viz.Jax [3; 1; 4]%nat) 3 1 4 (-1, 1)%float None None false).
  - reflexivity.
  - lia.
Defined.

(** With four spatial points and one channel the spatial range ends at 1,
    not at 5; the time range is that of the three snapshots. *)
Example plot_spatio_temporal_extent_example :
  exists image,
    Viz.trace (Viz.plot_spatio_temporal (Viz.ramp Viz.Jax [3; 1; 4]%nat)
                 (-1, 1)%float (Some 0%nat) None None false)
    = [ Viz.Imshow 0 image (-1) 1
          (Viz.Int 0, Viz.Int 2, Viz.Int 0, Viz.Int 1);
        Viz.SetXLabel 0 "Time";
        Viz.SetYLabel 0 "Space" ].
Proof. eexists. reflexivity. Qed.

(** ** The facets *)

Section FacetLoop.
Import Viz.
Variable body : nat -> nat -> run unit.
Variable n : nat.

Hypothesis in_range :
  forall i ax, (i < n)%nat ->
    outcome (body i ax) = Ok tt
    /\ Forall (fun e => is_remove e = false) (trace (body i ax))
    /\ Forall (fun e => is_past_the_end e = false) (trace (body i ax)).

Hypothesis at_the_end :
  forall ax, exists post, trace (body n ax) = GetItem n n :: post.

End FacetLoop.

Section FacetBodies.
Import Viz.

Lemma getitem_recorded_in_range (a : ndarray) (n i : nat) (rest : list nat) :
  shape a = n :: rest -> (i < n)%nat ->
  getitem_recorded a i = Run [GetItem i n] (Ok (leading_entry a i rest)).
Proof.
  intros Hshape Hlt. unfold getitem_recorded, getitem, shape_at.
  rewrite Hshape. cbn.
  destruct (decide (i < n)%nat) as [_|Hge]; [reflexivity | contradiction].
Qed.




Lemma remove_or_title_in_range (titles : option (list string)) (n i ax : nat) :
  titles_cover titles n -> (i < n)%nat ->
  exists tr, remove_or_title titles n i ax = Run tr (Ok tt) /\ quiet tr.
Proof.
  intros Hcover Hlt. unfold remove_or_title.
  destruct (decide (n <= i)%nat) as [Hle|_]; [lia|].
  destruct titles as [titles|].
  - cbn in Hcover.
    destruct (lookup_lt_is_Some_2 titles i ltac:(lia)) as [title Htitle].
    unfold list_getitem. rewrite Htitle.
    eexists. split; [reflexivity|]. split; repeat constructor.
  - eexists. split; [reflexivity|]. split; constructor.
Qed.


Lemma subplots_grid (nrows ncols : nat) :
  (2 <= nrows * ncols)%nat ->
  subplots nrows ncols
  = Run [Subplots nrows ncols] (Ok (AxesArray (seq 0 (nrows * ncols)))).
Proof.
  intros Hcells. unfold subplots.
  destruct (decide (nrows = 0 \/ ncols = 0)%nat) as [Hz|_]; [lia|].
  cbn. destruct (decide (nrows = 1 /\ ncols = 1)%nat) as [[-> ->]|_];
    [cbn in Hcells; lia | reflexivity].
Qed.
End FacetBodies.

Section FacetCells.
Import Viz.







End FacetCells.

Section FacetOrder.
Import Viz.


End FacetOrder.

Section FacetRuns.
Import Viz.



End FacetRuns.

(** The same from the other end: whatever the shape of the entries, a cell
    within the leading axis neither removes axes nor indexes past the end, so
    a run whose cells before the first surplus one end without an error gets
    to the index past the end. *)
Section FacetRunsGeneral.
Import Viz.












End FacetRunsGeneral.




(** With a NumPy input the run ends at the first surplus cell, and no axes
    are removed at all. *)
Example plot_state_2d_facet_numpy_example :
  exists image,
    Viz.plot_state_2d_facet (Viz.ramp Viz.NumPy [1; 1; 2; 2]%nat) false
      (-1, 1)%float (1, 2)%nat (Some ["first"]) None
    = Viz.Run
        [ Viz.Subplots 1 2;
          Viz.GetItem 0 1;
          Viz.Imshow 0 image (-1) 1 (Viz.Int 0, Viz.Int 2, Viz.Int 0, Viz.Int 2);
          Viz.SetXLabel 0 "x_0"; Viz.SetYLabel 0 "x_1";
          Viz.SetAspect 0 "equal"; Viz.SetTitle 0 "first";
          Viz.GetItem 1 1 ]
        (Raise (IndexError "index is out of bounds for axis 0")).
Proof. eexists. reflexivity. Qed.

(** With a jax input the surplus cell is filled with the last entry once
    more, and removed afterwards. *)
Example plot_state_2d_facet_jax_example :
  exists image image',
    Viz.plot_state_2d_facet (Viz.ramp Viz.Jax [1; 1; 2; 2]%nat) false
      (-1, 1)%float (1, 2)%nat (Some ["first"]) None
    = Viz.Run
        [ Viz.Subplots 1 2;
          Viz.GetItem 0 1;
          Viz.Imshow 0 image (-1) 1 (Viz.Int 0, Viz.Int 2, Viz.Int 0, Viz.Int 2);
          Viz.SetXLabel 0 "x_0"; Viz.SetYLabel 0 "x_1";
          Viz.SetAspect 0 "equal"; Viz.SetTitle 0 "first";
          Viz.GetItem 1 1;
          Viz.Imshow 1 image' (-1) 1 (Viz.Int 0, Viz.Int 2, Viz.Int 0, Viz.Int 2);
          Viz.SetXLabel 1 "x_0"; Viz.SetYLabel 1 "x_1";
          Viz.SetAspect 1 "equal"; Viz.Remove 1 ]
        (Ok tt)
    /\ image' = image.
Proof. eexists. eexists. split; reflexivity. Qed.

(** * Further properties of the code *)

(** ** The line plots *)

Section Viz1dLemmas.
Import Viz1d.

Lemma run1d_bind_Run_ok {A B : Type} (tr : list event) (a : A) (k : A -> run B) :
  run_bind (Run tr (Ok a)) k = Run (tr ++ trace (k a)) (outcome (k a)).
Proof. reflexivity. Qed.

Lemma run1d_bind_Run_raise {A B : Type} (tr : list event) (e : exn)
    (k : A -> run B) :
  run_bind (Run tr (Raise e)) k = Run tr (Raise e).
Proof. reflexivity. Qed.

Lemma run1d_eta {A : Type} (m : run A) : m = Run (trace m) (outcome m).
Proof. destruct m. reflexivity. Qed.

Lemma Forall_trace_bind {A B : Type} (P : event -> Prop) (m : run A)
    (k : A -> run B) :
  Forall P (trace m) -> (forall a, Forall P (trace (k a))) ->
  Forall P (trace (run_bind m k)).
Proof.
  intros Hm Hk. unfold run_bind. destruct (outcome m) as [a|e]; cbn.
  - apply Forall_app. split; [exact Hm | apply Hk].
  - exact Hm.
Qed.

Lemma Forall_trace_for_enumerate {A : Type} (P : event -> Prop)
    (body : nat -> A -> run unit) :
  (forall i x, Forall P (trace (body i x))) ->
  forall xs i, Forall P (trace (for_enumerate body i xs)).
Proof.
  intros Hbody xs. induction xs as [|x xs IH]; intros i; cbn.
  - constructor.
  - apply Forall_trace_bind; [apply Hbody | intros _; apply IH].
Qed.

Lemma outcome_bind_ok {A B : Type} (m : run A) (k : A -> run B) (b : B) :
  outcome (run_bind m k) = Ok b ->
  exists a, outcome m = Ok a /\ outcome (k a) = Ok b.
Proof.
  unfold run_bind. destruct (outcome m) as [a|e]; cbn; intros Hb.
  - eauto.
  - discriminate Hb.
Qed.
End Viz1dLemmas.

(** An index operation within its axis. *)
Section Viz1dNeverPastTheEnd.
Import Viz1d.
Variable make_grid : nat -> Viz.number -> nat -> bool -> Viz.ndarray.

Lemma plot_indexes_nothing (ax : nat) (x y : Viz.ndarray)
    (label : option (list string)) :
  Forall (fun e => forall i size, e <> Common (Viz.GetItem i size))
    (trace (plot ax x y label)).
Proof.
  unfold plot. destruct label as [labels|];
    repeat match goal with
           | |- context [decide ?P] => destruct (decide P)
           end;
    cbn; repeat constructor; intros i size Heq; discriminate Heq.
Qed.

Lemma on_axes_indexes_nothing (ax : option nat) (method : string)
    (call : nat -> event) :
  (forall a i size, call a <> Common (Viz.GetItem i size)) ->
  Forall (fun e => forall i size, e <> Common (Viz.GetItem i size))
    (trace (on_axes ax method call)).
Proof.
  intros Hcall. destruct ax as [a|]; cbn; repeat constructor. apply Hcall.
Qed.

Lemma plot_state_1d_indexes_nothing (state : Viz.ndarray)
    (vlim : float * float) (domain_extent : option float)
    (labels : option (list string)) (ax : option nat) (xlabel ylabel : string) :
  Forall (fun e => forall i size, e <> Common (Viz.GetItem i size))
    (trace (plot_state_1d make_grid state vlim domain_extent labels ax
              xlabel ylabel)).
Proof.
  unfold plot_state_1d.
  destruct (decide (Viz.ndim state <> 2%nat)) as [_|_]; [constructor|].
  unfold mbind, run_mbind, mret, run_mret.
  apply Forall_trace_bind.
  { destruct ax as [ax|]; cbn; repeat constructor.
    intros i size Heq. discriminate Heq. }
  intros ax1. apply Forall_trace_bind.
  { destruct ax1; cbn; constructor. }
  intros a. apply Forall_trace_bind.
  { cbn. constructor. }
  intros grid0. apply Forall_trace_bind; [apply plot_indexes_nothing|].
  intros _. apply Forall_trace_bind.
  { apply on_axes_indexes_nothing. intros; discriminate. }
  intros _. apply Forall_trace_bind.
  { apply on_axes_indexes_nothing. intros; discriminate. }
  intros _. apply Forall_trace_bind.
  { destruct labels; [|constructor].
    apply on_axes_indexes_nothing. intros; discriminate. }
  intros _. apply Forall_trace_bind.
  { apply on_axes_indexes_nothing. intros; discriminate. }
  intros _. apply Forall_trace_bind.
  { apply on_axes_indexes_nothing. intros; discriminate. }
  intros _. destruct ax1; constructor.
Qed.

Lemma plot_state_1d_facet_cell_within (states : Viz.ndarray)
    (vlim : float * float) (labels titles : option (list string))
    (domain_extent : option float) (i ax : nat) :
  Forall (fun e => forall j size,
            e = Common (Viz.GetItem j size) -> (j < size)%nat)
    (trace (plot_state_1d_facet_cell make_grid states vlim labels titles
              domain_extent (Viz.shape_at states 0) i ax)).
Proof.
  unfold plot_state_1d_facet_cell.
  destruct (decide (i < Viz.shape_at states 0)%nat) as [Hlt|Hge].
  - unfold mbind, run_mbind.
    apply Forall_trace_bind.
    + cbn. destruct (Viz.getitem states i); cbn; repeat constructor;
        intros j size Heq; injection Heq as -> <-; exact Hlt.
    + intros state. apply Forall_trace_bind.
      * eapply Forall_impl; [apply plot_state_1d_indexes_nothing|].
        intros e Hne j size Heq. destruct (Hne j size Heq).
      * intros _. destruct titles as [titles|]; [|constructor].
        unfold lift, list_getitem. destruct (titles !! i); cbn;
          repeat constructor; intros j size Heq; discriminate Heq.
  - cbn. repeat constructor. intros j size Heq. discriminate Heq.
Qed.
End Viz1dNeverPastTheEnd.

(** X1. [plot_state_1d_facet] never indexes its input past the end of the
    leading axis, whatever the input, the grid and the titles are: the bounds
    check [i < num_batches] comes before [states[i]]. *)
Theorem plot_state_1d_facet_never_indexes_past_the_end
    (make_grid : nat -> Viz.number -> nat -> bool -> Viz.ndarray)
    (states : Viz.ndarray) (vlim : float * float)
    (labels titles : option (list string)) (domain_extent : option float)
    (grid : nat * nat) :
  Forall (fun e => forall i size,
            e = Viz1d.Common (Viz.GetItem i size) -> (i < size)%nat)
    (Viz1d.trace (Viz1d.plot_state_1d_facet make_grid states vlim labels titles
                    domain_extent grid)).
Proof.
  unfold Viz1d.plot_state_1d_facet.
  destruct (decide (Viz.ndim states <> 3%nat)) as [_|_]; [constructor|].
  unfold mbind, Viz1d.run_mbind.
  apply Forall_trace_bind.
  - unfold Viz.subplots.
    destruct (decide (grid.1 = 0 \/ grid.2 = 0)%nat); [constructor|].
    cbn. destruct (decide (grid.1 = 1 /\ grid.2 = 1)%nat); cbn;
      repeat constructor; intros i size Heq; discriminate Heq.
  - intros ax_s. apply Forall_trace_bind.
    + destruct ax_s; cbn; constructor.
    + intros flat. apply Forall_trace_for_enumerate.
      intros i ax. apply plot_state_1d_facet_cell_within.
Qed.

Section Viz1dRuns.
Import Viz1d.
Variable make_grid : nat -> Viz.number -> nat -> bool -> Viz.ndarray.
Hypothesis grid_shape :
  forall extent n, Viz.shape (make_grid 1 extent n true) = [1; S n]%nat.

(** Coordinates and values of one length, and a label for each channel. *)
Lemma plot_ok (a : nat) (x y : Viz.ndarray) (C N : nat)
    (labels : option (list string)) :
  Viz.shape x = [N] -> Viz.shape y = [N; C] -> labels_fit labels C ->
  plot a x y labels = Run [Plot a x y labels] (Ok tt).
Proof.
  intros Hx Hy Hfit. unfold plot, columns, plot_shape. rewrite Hx, Hy.
  cbn [hd length].
  destruct (decide (N <> N)) as [Hne|_]; [contradiction|].
  destruct (decide (2 < 1 \/ 2 < 2)%nat) as [Hgt|_]; [lia|].
  destruct (decide (1 < 1 /\ 1 < C /\ 1 <> C)%nat) as [Hgt|_]; [lia|].
  destruct (decide (1 = 0 \/ C = 0)%nat) as [_|_]; [reflexivity|].
  destruct labels as [labels|]; [|reflexivity].
  cbn in Hfit.
  destruct (decide (1 < max 1 C /\ length labels <> max 1 C)%nat) as [Hgt|_];
    [lia | reflexivity].
Qed.

Lemma plot_state_1d_ok (state : Viz.ndarray) (C N : nat)
    (vlim : float * float) (domain_extent : option float)
    (labels : option (list string)) (ax : option nat) (xlabel ylabel : string) :
  Viz.shape state = [C; N] -> labels_fit labels C ->
  exists new_figure a g,
    common (Viz.axes_or_new ax) = Run new_figure (Ok a)
    /\ Viz.shape g = [S N]
    /\ plot_state_1d make_grid state vlim domain_extent labels ax xlabel ylabel
       = Run (new_figure
              ++ [Plot a g (Viz.transpose (Viz.wrap_bc state)) labels;
                  SetYLim a vlim; Grid a]
              ++ match labels with Some _ => [Legend a] | None => [] end
              ++ [Common (Viz.SetXLabel a xlabel);
                  Common (Viz.SetYLabel a ylabel)])
           (Ok Lines).
Proof using grid_shape.
  intros Hshape Hfit. unfold plot_state_1d, Viz.ndim. rewrite Hshape.
  cbn [length List.last].
  destruct (decide (2 <> 2)%nat) as [Hne|_]; [contradiction|].
  set (extent := match domain_extent with
                 | Some x => Viz.Float x
                 | None => Viz.Int (Z.of_nat N)
                 end).
  set (g := Viz.leading_entry (make_grid 1 extent N true) 0 [S N]).
  assert (Viz.getitem (make_grid 1 extent N true) 0 = Ok g) as Hg.
  { unfold Viz.getitem. rewrite grid_shape.
    destruct (decide (0 < 1)%nat) as [_|Hge]; [reflexivity | lia]. }
  assert (forall a,
             plot a g (Viz.transpose (Viz.wrap_bc state)) labels
             = Run [Plot a g (Viz.transpose (Viz.wrap_bc state)) labels]
                 (Ok tt)) as Hplot.
  { intros a. apply (plot_ok a g _ C (S N)); [reflexivity| |exact Hfit].
    unfold Viz.transpose, Viz.wrap_bc. rewrite Hshape. reflexivity. }
  unfold mbind, run_mbind, mret, run_mret, lift, run_ret.
  destruct ax as [a|].
  - exists [], a, g. split; [reflexivity|]. split; [reflexivity|].
    rewrite run1d_bind_Run_ok. cbn [axes_method]. unfold run_ret.
    rewrite run1d_bind_Run_ok, Hg, run1d_bind_Run_ok, Hplot.
    destruct labels; reflexivity.
  - exists [Common (Viz.Subplots 1 1)], 0%nat, g.
    split; [reflexivity|]. split; [reflexivity|].
    change (common (Viz.axes_or_new None))
      with (Run [Common (Viz.Subplots 1 1)] (Ok 0%nat)).
    rewrite run1d_bind_Run_ok. cbn [trace outcome app].
    rewrite run1d_bind_Run_ok. cbn [axes_method]. unfold run_ret.
    rewrite run1d_bind_Run_ok, Hg, run1d_bind_Run_ok, Hplot.
    destruct labels; reflexivity.
Qed.

Lemma plot_state_1d_facet_cell_in_range (states : Viz.ndarray) (B C N : nat)
    (vlim : float * float) (labels titles : option (list string))
    (domain_extent : option float) (i ax : nat) :
  Viz.shape states = [B; C; N] -> labels_fit labels C -> (i < B)%nat ->
  Viz.titles_cover titles (S i) ->
  exists tr,
    plot_state_1d_facet_cell make_grid states vlim labels titles domain_extent
      B i ax = Run tr (Ok tt)
    /\ plotted tr = [ax] /\ removed tr = [] /\ indexed tr = [(i, B)].
Proof using grid_shape.
  intros Hshape Hfit Hlt Hcover. unfold plot_state_1d_facet_cell.
  destruct (decide (i < B)%nat) as [_|Hge]; [|contradiction].
  unfold mbind, run_mbind.
  rewrite (getitem_recorded_in_range states B i [C; N] Hshape Hlt).
  unfold common. cbn [Viz.trace Viz.outcome map]. rewrite run1d_bind_Run_ok.
  destruct (plot_state_1d_ok (Viz.leading_entry states i [C; N]) C N vlim
              domain_extent labels (Some ax) "Space" "Value" eq_refl Hfit)
    as (new_figure & a & g & Hax & _ & Hplot).
  cbn in Hax. injection Hax as <- <-. rewrite Hplot, run1d_bind_Run_ok.
  destruct titles as [titles|].
  - cbn in Hcover.
    destruct (lookup_lt_is_Some_2 titles i ltac:(lia)) as [title Htitle].
    unfold lift, list_getitem. rewrite Htitle.
    eexists. split; [reflexivity|]. destruct labels; repeat split.
  - eexists. split; [reflexivity|]. destruct labels; repeat split.
Qed.

Lemma plot_state_1d_facet_cell_surplus (states : Viz.ndarray)
    (vlim : float * float) (labels titles : option (list string))
    (domain_extent : option float) (B i ax : nat) :
  (B <= i)%nat ->
  plot_state_1d_facet_cell make_grid states vlim labels titles domain_extent
    B i ax = Run [Common (Viz.Remove ax)] (Ok tt).
Proof.
  intros Hle. unfold plot_state_1d_facet_cell.
  destruct (decide (i < B)%nat) as [Hlt|_]; [lia | reflexivity].
Qed.

Lemma plot_state_1d_facet_loop_in_range (states : Viz.ndarray) (B C N : nat)
    (vlim : float * float) (labels titles : option (list string))
    (domain_extent : option float) (rest : list nat) (len i : nat) :
  Viz.shape states = [B; C; N] -> labels_fit labels C ->
  (i + len <= B)%nat ->
  Viz.titles_cover titles (i + len) ->
  exists tr,
    for_enumerate
      (plot_state_1d_facet_cell make_grid states vlim labels titles
         domain_extent B) i (seq i len ++ rest)
    = Run (tr ++ trace (for_enumerate
                          (plot_state_1d_facet_cell make_grid states vlim
                             labels titles domain_extent B) (i + len) rest))
          (outcome (for_enumerate
                      (plot_state_1d_facet_cell make_grid states vlim labels
                         titles domain_extent B) (i + len) rest))
    /\ plotted tr = seq i len /\ removed tr = []
    /\ indexed tr = map (fun j => (j, B)) (seq i len).
Proof using grid_shape.
  intros Hshape Hfit. revert i.
  induction len as [|len IH]; intros i Hle Hcover.
  - exists []. rewrite Nat.add_0_r. cbn [seq app].
    split; [apply run1d_eta | repeat split].
  - cbn [seq app for_enumerate].
    destruct (plot_state_1d_facet_cell_in_range states B C N vlim labels titles
                domain_extent i i Hshape Hfit ltac:(lia))
      as (tr & Hcell & Hp & Hr & Hi).
    { destruct titles; cbn in *; [lia | exact I]. }
    destruct (IH (S i) ltac:(lia)) as (tr' & Hloop & Hp' & Hr' & Hi').
    { replace (S i + len)%nat with (i + S len)%nat by lia. exact Hcover. }
    rewrite Hcell, run1d_bind_Run_ok, Hloop. cbn [trace outcome].
    replace (S i + len)%nat with (i + S len)%nat by lia.
    exists (tr ++ tr'). split; [rewrite app_assoc; reflexivity|].
    unfold plotted, removed, indexed in *. rewrite !omap_app.
    rewrite Hp, Hr, Hi, Hp', Hr', Hi'. repeat split.
Qed.

Lemma plot_state_1d_facet_loop_surplus (states : Viz.ndarray)
    (vlim : float * float) (labels titles : option (list string))
    (domain_extent : option float) (B len i : nat) :
  (len = 0 \/ B <= i)%nat ->
  for_enumerate
    (plot_state_1d_facet_cell make_grid states vlim labels titles
       domain_extent B) i (seq i len)
  = Run (map (fun j => Common (Viz.Remove j)) (seq i len)) (Ok tt).
Proof.
  revert i. induction len as [|len IH]; intros i Hi; [reflexivity|].
  cbn [seq for_enumerate map].
  rewrite plot_state_1d_facet_cell_surplus by lia.
  rewrite run1d_bind_Run_ok, IH by lia. reflexivity.
Qed.

Lemma removed_map_Remove (axs : list nat) :
  removed (map (fun j => Common (Viz.Remove j)) axs) = axs.
Proof. induction axs as [|j axs IH]; [reflexivity|]. cbn. f_equal. exact IH. Qed.

Lemma plotted_map_Remove (axs : list nat) :
  plotted (map (fun j => Common (Viz.Remove j)) axs) = [].
Proof. induction axs as [|j axs IH]; [reflexivity|]. exact IH. Qed.

Lemma indexed_map_Remove (axs : list nat) :
  indexed (map (fun j => Common (Viz.Remove j)) axs) = [].
Proof. induction axs as [|j axs IH]; [reflexivity|]. exact IH. Qed.
End Viz1dRuns.

(** X2. On a three-axis input, [plot_state_1d_facet] plots the entries of
    the leading axis that fit into the grid, each on the axes of its own
    index, and removes the axes left over, without indexing the input or
    plotting for them; the run ends normally.  The grid has at least two
    cells; the labels, when given, are one for each channel and the titles,
    when given, cover the plotted entries, as the docstring asks; and
    [make_grid] (not among the sources) returns one row of [N + 1]
    coordinates for a state of [N] points. *)
Theorem plot_state_1d_facet_plots_entries_and_removes_surplus
    (make_grid : nat -> Viz.number -> nat -> bool -> Viz.ndarray)
    (states : Viz.ndarray) (B C N nrows ncols : nat) (vlim : float * float)
    (labels titles : option (list string)) (domain_extent : option float) :
  (forall extent n,
      Viz.shape (make_grid 1 extent n true) = [1; S n]%nat) ->
  Viz.shape states = [B; C; N] ->
  Viz1d.labels_fit labels C ->
  (2 <= nrows * ncols)%nat ->
  Viz.titles_cover titles (min B (nrows * ncols)) ->
  let r := Viz1d.plot_state_1d_facet make_grid states vlim labels titles
             domain_extent (nrows, ncols) in
  Viz1d.outcome r = Ok tt
  /\ Viz1d.plotted (Viz1d.trace r) = seq 0 (min B (nrows * ncols))
  /\ Viz1d.indexed (Viz1d.trace r)
     = map (fun i => (i, B)) (seq 0 (min B (nrows * ncols)))
  /\ Viz1d.removed (Viz1d.trace r) = seq B (nrows * ncols - B).
Proof.
  intros Hgrid Hshape Hfit Hcells Hcover r. subst r.
  unfold Viz1d.plot_state_1d_facet, Viz.ndim, Viz.shape_at. rewrite Hshape.
  cbn [length nth fst snd].
  destruct (decide (3 <> 3)%nat) as [Hne|_]; [contradiction|].
  unfold mbind, Viz1d.run_mbind.
  rewrite (subplots_grid nrows ncols Hcells).
  change (Viz1d.common (Viz.Run [Viz.Subplots nrows ncols]
                          (Ok (Viz.AxesArray (seq 0 (nrows * ncols))))))
    with (Viz1d.Run [Viz1d.Common (Viz.Subplots nrows ncols)]
            (Ok (Viz.AxesArray (seq 0 (nrows * ncols))))).
  rewrite run1d_bind_Run_ok.
  change (Viz1d.common (Viz.flatten (Viz.AxesArray (seq 0 (nrows * ncols)))))
    with (Viz1d.Run [] (Ok (seq 0 (nrows * ncols)))).
  rewrite run1d_bind_Run_ok. cbn [app].
  set (cells := (nrows * ncols)%nat) in *.
  set (m := min B cells) in *.
  replace (seq 0 cells) with (seq 0 m ++ seq (0 + m) (cells - m))
    by (rewrite <- seq_app; f_equal; lia).
  destruct (plot_state_1d_facet_loop_in_range make_grid Hgrid states B C N vlim
              labels titles domain_extent (seq (0 + m) (cells - m)) m 0 Hshape
              Hfit ltac:(lia) Hcover) as (tr & Hloop & Hp & Hr & Hi).
  rewrite Hloop.
  rewrite (plot_state_1d_facet_loop_surplus make_grid states vlim labels titles
             domain_extent B (cells - m) (0 + m)) by lia.
  cbn [Viz1d.trace Viz1d.outcome]. split; [reflexivity|].
  change (Viz1d.Common (Viz.Subplots nrows ncols)
          :: tr ++ map (fun j => Viz1d.Common (Viz.Remove j))
                     (seq (0 + m) (cells - m)))
    with ([Viz1d.Common (Viz.Subplots nrows ncols)]
          ++ tr ++ map (fun j => Viz1d.Common (Viz.Remove j))
                     (seq (0 + m) (cells - m))).
  unfold Viz1d.plotted, Viz1d.indexed, Viz1d.removed in *.
  rewrite !omap_app. rewrite Hp, Hr, Hi.
  pose proof (plotted_map_Remove (seq (0 + m) (cells - m))) as Hp'.
  pose proof (indexed_map_Remove (seq (0 + m) (cells - m))) as Hi'.
  pose proof (removed_map_Remove (seq (0 + m) (cells - m))) as Hr'.
  unfold Viz1d.plotted, Viz1d.indexed, Viz1d.removed in *.
  rewrite Hp', Hi', Hr', !app_nil_r. cbn [omap list_omap app].
  split; [reflexivity|]. split; [reflexivity|].
  destruct (decide (B <= cells)%nat) as [Hle|Hgt].
  - replace m with B by lia. reflexivity.
  - replace (cells - m)%nat with 0%nat by lia.
    replace (cells - B)%nat with 0%nat by lia. reflexivity.
Qed.

Lemma plot_state_1d_facet_plots_entries_and_removes_surplus_witness :
  let r := Viz1d.plot_state_1d_facet Viz1d.sample_grid
             (Viz.ramp Viz.NumPy [2; 2; 4]%nat) (-1, 1)%float
             (Some ["u"; "v"]) (Some ["a"; "b"]) None (2, 2)%nat in
  Viz1d.outcome r = Ok tt
  /\ Viz1d.plotted (Viz1d.trace r) = [0; 1]%nat
  /\ Viz1d.indexed (Viz1d.trace r) = [(0, 2); (1, 2)]%nat
  /\ Viz1d.removed (Viz1d.trace r) = [2; 3]%nat.
Proof.
  apply (plot_state_1d_facet_plots_entries_and_removes_surplus
           Viz1d.sample_grid (Viz.ramp Viz.NumPy [2; 2; 4]%nat) 2 2 4 2 2).
  - intros extent n. reflexivity.
  - reflexivity.
  - reflexivity.
  - cbn. lia.
  - cbn. lia.
Defined.

(** Two channels and one label: [ax.plot] refuses the labels in the first
    cell, after the figure has been made and the first state indexed. *)
Example plot_state_1d_facet_one_label_for_two_channels :
  Viz1d.plot_state_1d_facet Viz1d.sample_grid
    (Viz.ramp Viz.NumPy [1; 2; 4]%nat) (-1, 1)%float (Some ["u"]) None None
    (1, 2)%nat
  = Viz1d.Run
      [ Viz1d.Common (Viz.Subplots 1 2); Viz1d.Common (Viz.GetItem 0 1) ]
      (Raise (ValueError
                "label must be scalar or have the same length as the input data")).
Proof. reflexivity. Qed.

(** X3. [plot_state_1d] never returns the figure, the axes and the lines
    together, also when no axes were passed: by the time of the return the
    variable [ax] holds the axes of the new figure.  On a two-axis state,
    with one label for each channel (when labels are given) and a grid of one
    row of [N + 1] coordinates from [make_grid], it returns the lines alone,
    with and without axes passed. *)
Theorem plot_state_1d_returns_the_lines_alone
    (make_grid : nat -> Viz.number -> nat -> bool -> Viz.ndarray)
    (state : Viz.ndarray) (vlim : float * float)
    (domain_extent : option float) (labels : option (list string))
    (ax : option nat) (xlabel ylabel : string) :
  (forall a,
     Viz1d.outcome (Viz1d.plot_state_1d make_grid state vlim domain_extent
                      labels ax xlabel ylabel) <> Ok (Viz1d.FigAxLines a))
  /\ ((forall extent n,
         Viz.shape (make_grid 1 extent n true) = [1; S n]%nat) ->
      forall C N,
        Viz.shape state = [C; N] ->
        Viz1d.labels_fit labels C ->
        Viz1d.outcome (Viz1d.plot_state_1d make_grid state vlim domain_extent
                         labels ax xlabel ylabel) = Ok Viz1d.Lines).
Proof.
  split.
  - intros a Hout. unfold Viz1d.plot_state_1d in Hout.
    destruct (decide (Viz.ndim state <> 2%nat)) as [_|_]; [discriminate Hout|].
    unfold mbind, Viz1d.run_mbind in Hout.
    apply outcome_bind_ok in Hout as (ax1 & Hax1 & Hout).
    assert (exists a1, ax1 = Some a1) as [a1 ->].
    { destruct ax as [a0|]; cbn in Hax1; injection Hax1 as <-; eauto. }
    repeat (apply outcome_bind_ok in Hout as (? & _ & Hout)).
    discriminate Hout.
  - intros Hgrid C N Hshape Hfit.
    destruct (plot_state_1d_ok make_grid Hgrid state C N vlim domain_extent
                labels ax xlabel ylabel Hshape Hfit)
      as (new_figure & a & g & _ & _ & Hplot).
    rewrite Hplot. reflexivity.
Qed.

Example plot_state_1d_new_figure :
  exists x y,
    Viz1d.plot_state_1d Viz1d.sample_grid (Viz.ramp Viz.Jax [1; 4]%nat)
      (-1, 1)%float None (Some ["u"]) None "Space" "Value"
    = Viz1d.Run
        [ Viz1d.Common (Viz.Subplots 1 1);
          Viz1d.Plot 0 x y (Some ["u"]);
          Viz1d.SetYLim 0 (-1, 1)%float;
          Viz1d.Grid 0;
          Viz1d.Legend 0;
          Viz1d.Common (Viz.SetXLabel 0 "Space");
          Viz1d.Common (Viz.SetYLabel 0 "Value") ]
        (Ok Viz1d.Lines)
    /\ Viz.shape x = [5]%nat /\ Viz.shape y = [5; 1]%nat.
Proof. eexists. eexists. split; [reflexivity|]. split; reflexivity. Qed.

(** ** The image plots *)

(** X4. Each plot routine checks the number of axes of its input before it
    does anything else: on an input with another number of axes it raises
    [ValueError] and nothing is drawn; the facets do not even create their
    figure.  [plot_spatio_temporal] wants three axes, though its message
    speaks of two. *)
Theorem plot_routines_reject_wrong_ndim_before_drawing
    (make_grid : nat -> Viz.number -> nat -> bool -> Viz.ndarray)
    (a : Viz.ndarray) (vlim : float * float) (ax : option nat)
    (domain_extent dt : option float) (include_init : bool)
    (labels titles : option (list string)) (xlabel ylabel : string)
    (grid : nat * nat) :
  (Viz.ndim a <> 2%nat ->
   Viz1d.plot_state_1d make_grid a vlim domain_extent labels ax xlabel ylabel
   = Viz1d.Run [] (Raise (ValueError "state must be a two-axis array.")))
  /\ (Viz.ndim a <> 3%nat ->
      Viz1d.plot_state_1d_facet make_grid a vlim labels titles domain_extent grid
      = Viz1d.Run [] (Raise (ValueError "states must be a three-axis array."))
      /\ Viz.plot_spatio_temporal a vlim ax domain_extent dt include_init
         = Viz.Run [] (Raise (ValueError "trj must be a two-axis array."))
      /\ Viz.plot_spatio_temporal_facet a true vlim grid titles domain_extent dt
           include_init
         = Viz.Run [] (Raise (ValueError "trjs must be a three-axis array."))
      /\ Viz.plot_state_2d a vlim domain_extent ax
         = Viz.Run [] (Raise (ValueError "state must be a three-axis array."))
      /\ Viz.plot_state_2d_facet a true vlim grid titles domain_extent
         = Viz.Run [] (Raise (ValueError "states must be a three-axis array.")))
  /\ (Viz.ndim a <> 4%nat ->
      Viz.plot_spatio_temporal_facet a false vlim grid titles domain_extent dt
        include_init
      = Viz.Run [] (Raise (ValueError "trjs must be a four-axis array."))
      /\ Viz.plot_state_2d_facet a false vlim grid titles domain_extent
         = Viz.Run [] (Raise (ValueError "states must be a four-axis array."))).
Proof.
  split; [|split].
  - intros Hn. unfold Viz1d.plot_state_1d.
    destruct (decide (Viz.ndim a <> 2%nat)); [reflexivity | contradiction].
  - intros Hn.
    unfold Viz1d.plot_state_1d_facet, Viz.plot_spatio_temporal,
      Viz.plot_spatio_temporal_facet, Viz.plot_state_2d, Viz.plot_state_2d_facet.
    destruct (decide (Viz.ndim a <> 3%nat)); [|contradiction].
    repeat split.
  - intros Hn.
    unfold Viz.plot_spatio_temporal_facet, Viz.plot_state_2d_facet.
    destruct (decide (Viz.ndim a <> 4%nat)); [|contradiction].
    repeat split.
Qed.

Section ImageFacets.
Import Viz.

Lemma subplots_single_cell :
  subplots 1 1 = Run [Subplots 1 1] (Ok (SingleAxes 0)).
Proof. reflexivity. Qed.

End ImageFacets.

(** X5. A facet cannot be drawn on a grid of one cell: for such a grid
    [plt.subplots] returns the single axes object, which has no [flatten],
    so every facet routine creates the figure and then raises
    [AttributeError], whatever the (well-shaped) input is. *)
Theorem facets_fail_on_a_grid_of_one_cell
    (make_grid : nat -> Viz.number -> nat -> bool -> Viz.ndarray)
    (a : Viz.ndarray) (vlim : float * float)
    (domain_extent dt : option float) (include_init : bool)
    (labels titles : option (list string)) :
  (Viz.ndim a = 3%nat ->
   Viz1d.plot_state_1d_facet make_grid a vlim labels titles domain_extent
     (1, 1)%nat
   = Viz1d.Run [Viz1d.Common (Viz.Subplots 1 1)]
       (Raise (AttributeError "'Axes' object has no attribute 'flatten'"))
   /\ Viz.plot_spatio_temporal_facet a true vlim (1, 1)%nat titles
        domain_extent dt include_init
      = Viz.Run [Viz.Subplots 1 1]
          (Raise (AttributeError "'Axes' object has no attribute 'flatten'"))
   /\ Viz.plot_state_2d_facet a true vlim (1, 1)%nat titles domain_extent
      = Viz.Run [Viz.Subplots 1 1]
          (Raise (AttributeError "'Axes' object has no attribute 'flatten'")))
  /\ (Viz.ndim a = 4%nat ->
      Viz.plot_spatio_temporal_facet a false vlim (1, 1)%nat titles
        domain_extent dt include_init
      = Viz.Run [Viz.Subplots 1 1]
          (Raise (AttributeError "'Axes' object has no attribute 'flatten'"))
      /\ Viz.plot_state_2d_facet a false vlim (1, 1)%nat titles domain_extent
         = Viz.Run [Viz.Subplots 1 1]
             (Raise (AttributeError "'Axes' object has no attribute 'flatten'"))).
Proof.
  split; intros Hn.
  - unfold Viz1d.plot_state_1d_facet, Viz.plot_spatio_temporal_facet,
      Viz.plot_state_2d_facet. rewrite Hn.
    destruct (decide (3 <> 3)%nat) as [Hne|_]; [contradiction|].
    split; [reflexivity|]. split; [|reflexivity].
    destruct a as [l s e]. unfold Viz.ndim in Hn. cbn in Hn.
    destruct s as [|n [|m [|k [|]]]]; try discriminate Hn. reflexivity.
  - unfold Viz.plot_spatio_temporal_facet, Viz.plot_state_2d_facet. rewrite Hn.
    destruct (decide (4 <> 4)%nat) as [Hne|_]; [contradiction|].
    split; reflexivity.
Qed.

(** X6. In its default mode (facet over the channels of a three-axis input)
    [plot_state_2d_facet] never draws anything: the entry [states[0]] has two
    axes, which [plot_state_2d] rejects, so the run stops in the first cell
    with [ValueError], for every non-empty input and every grid of two or
    more cells. *)
Theorem plot_state_2d_facet_over_channels_always_fails
    (states : Viz.ndarray) (c h w nrows ncols : nat) (vlim : float * float)
    (titles : option (list string)) (domain_extent : option float) :
  Viz.shape states = [S c; h; w] ->
  (2 <= nrows * ncols)%nat ->
  Viz.plot_state_2d_facet states true vlim (nrows, ncols) titles domain_extent
  = Viz.Run [Viz.Subplots nrows ncols; Viz.GetItem 0 (S c)]
      (Raise (ValueError "state must be a three-axis array.")).
Proof.
  intros Hshape Hcells.
  unfold Viz.plot_state_2d_facet, Viz.ndim, Viz.shape_at. rewrite Hshape.
  cbn [length nth fst snd].
  destruct (decide (3 <> 3)%nat) as [Hne|_]; [contradiction|].
  unfold mbind, Viz.run_mbind, mret, Viz.run_mret, Viz.run_ret.
  rewrite run_bind_Run_ok, (subplots_grid nrows ncols Hcells), run_bind_Run_ok.
  cbn [Viz.flatten Viz.trace app]. unfold mret, Viz.run_mret, Viz.run_ret.
  rewrite run_bind_Run_ok. cbn [Viz.trace app].
  destruct (nrows * ncols)%nat as [|cells]; [lia|].
  cbn [seq Viz.for_enumerate].
  assert (Viz.plot_state_2d_facet_cell states vlim titles domain_extent (S c) 0 0
          = Viz.Run [Viz.GetItem 0 (S c)]
              (Raise (ValueError "state must be a three-axis array.")))
    as Hcell.
  { unfold Viz.plot_state_2d_facet_cell, mbind, Viz.run_mbind.
    rewrite (getitem_recorded_in_range states (S c) 0 [h; w] Hshape ltac:(lia)).
    reflexivity. }
  rewrite Hcell. reflexivity.
Qed.

Lemma plot_state_2d_facet_over_channels_always_fails_witness :
  Viz.plot_state_2d_facet (Viz.ramp Viz.NumPy [3; 2; 2]%nat) true (-1, 1)%float
    (1, 2)%nat (Some ["u"; "v"; "w"]) (Some 1%float)
  = Viz.Run [Viz.Subplots 1 2; Viz.GetItem 0 3]
      (Raise (ValueError "state must be a three-axis array.")).
Proof.
  apply (plot_state_2d_facet_over_channels_always_fails
           (Viz.ramp Viz.NumPy [3; 2; 2]%nat) 2 2 2 1 2).
  - reflexivity.
  - cbn. lia.
Defined.

(** X7. [plot_state_2d] hands the whole wrapped state, its axes reversed, to
    [imshow]: an image of [W + 1] by [H + 1] points with the channels on its
    last axis.  With 1, 3 or 4 channels the image is drawn, and without a
    [domain_extent] the extent takes the number of points of the last axis,
    before the boundary is wrapped, as the upper end of both ranges.  With
    any other number of channels [imshow] refuses the image: the routine
    raises [TypeError] and nothing is drawn. *)
Theorem plot_state_2d_extent_and_image
    (state : Viz.ndarray) (c h w : nat) (vlim : float * float) (ax : nat) :
  Viz.shape state = [c; h; w] ->
  let image := VizTrace.state_2d_image state in
  Viz.shape image = [S w; S h; c]
  /\ (forall i j k, (i <= w)%nat -> (j <= h)%nat ->
        Viz.entry image [i; j; k]
        = Viz.entry state [k; (j mod h)%nat; (i mod w)%nat])
  /\ ((c = 1 \/ c = 3 \/ c = 4)%nat ->
      Viz.plot_state_2d state vlim None (Some ax)
      = Viz.Run
          [ Viz.Imshow ax image vlim.1 vlim.2
              (Viz.Int 0, Viz.Int (Z.of_nat w),
               Viz.Int 0, Viz.Int (Z.of_nat w));
            Viz.SetXLabel ax "x_0"; Viz.SetYLabel ax "x_1";
            Viz.SetAspect ax "equal" ]
          (Ok tt))
  /\ (~ (c = 1 \/ c = 3 \/ c = 4)%nat ->
      forall domain_extent,
        Viz.plot_state_2d state vlim domain_extent (Some ax)
        = Viz.Run [] (Raise (TypeError "Invalid shape for image data"))).
Proof.
  intros Hshape image. subst image.
  destruct state as [l s e]. cbn in Hshape. subst s.
  split; [reflexivity|]. split; [intros i j k Hi Hj; reflexivity|]. split.
  - intros [->|[->| ->]]; reflexivity.
  - intros Hc domain_extent. unfold Viz.plot_state_2d, Viz.ndim.
    cbn [Viz.shape length].
    destruct (decide (3 <> 3)%nat) as [Hne|_]; [contradiction|].
    cbn [Viz.axes_or_new]. unfold mbind, Viz.run_mbind, mret, Viz.run_mret,
      Viz.run_ret.
    rewrite run_bind_Run_ok. unfold Viz.imshow.
    cbn [Viz.shape Viz.transpose Viz.wrap_bc rev app map Viz.is_image_shape].
    rewrite bool_decide_eq_false_2 by exact Hc. reflexivity.
Qed.

Lemma plot_state_2d_extent_and_image_witness :
  Viz.shape (VizTrace.state_2d_image (Viz.ramp Viz.Jax [1; 2; 3]%nat))
  = [4; 3; 1]%nat
  /\ Viz.plot_state_2d (Viz.ramp Viz.Jax [1; 2; 3]%nat) (-1, 1)%float None
       (Some 0%nat)
     = Viz.Run
         [ Viz.Imshow 0 (VizTrace.state_2d_image (Viz.ramp Viz.Jax [1; 2; 3]%nat))
             (-1) 1 (Viz.Int 0, Viz.Int 3, Viz.Int 0, Viz.Int 3);
           Viz.SetXLabel 0 "x_0"; Viz.SetYLabel 0 "x_1";
           Viz.SetAspect 0 "equal" ]
         (Ok tt)
  /\ Viz.plot_state_2d (Viz.ramp Viz.Jax [2; 2; 3]%nat) (-1, 1)%float None
       (Some 0%nat)
     = Viz.Run [] (Raise (TypeError "Invalid shape for image data")).
Proof.
  destruct (plot_state_2d_extent_and_image (Viz.ramp Viz.Jax [1; 2; 3]%nat)
              1 2 3 (-1, 1)%float 0 eq_refl) as (Hshape & _ & Hdraw & _).
  destruct (plot_state_2d_extent_and_image (Viz.ramp Viz.Jax [2; 2; 3]%nat)
              2 2 3 (-1, 1)%float 0 eq_refl) as (_ & _ & _ & Hrefuse).
  split; [exact Hshape|]. split.
  - apply Hdraw. lia.
  - apply Hrefuse. lia.
Defined.

(** ** Whole runs of the image facets *)

Section FacetLoops.
Import Viz VizTrace.

Variable plot : ndarray -> nat -> run unit.
Variable a : ndarray.
Variable n : nat.
Variable rest : list nat.
Variable titles : option (list string).
Variable img : ndarray -> ndarray.
Variable vmin vmax : float.
Variable ext : number * number * number * number.
Variable post : nat -> list event.

Hypothesis a_shape : shape a = n :: rest.
Hypothesis plot_ok :
  forall i ax,
    plot (leading_entry a i rest) ax
    = Run (Imshow ax (img (leading_entry a i rest)) vmin vmax ext :: post ax)
          (Ok tt).
Hypothesis post_plain :
  forall ax,
    images (post ax) = [] /\ indexed (post ax) = [] /\ removed (post ax) = [].

Lemma getitem_recorded_clamped (n' j : nat) :
  lib a = Jax -> n = S n' ->
  getitem_recorded a j
  = Run [GetItem j n] (Ok (leading_entry a (min j n') rest)).
Proof using a_shape.
  intros Hlib ->. unfold getitem_recorded, getitem, shape_at.
  rewrite a_shape, Hlib. cbn.
  destruct (decide (j < S n')%nat) as [Hlt|Hge].
  - replace (min j n') with j by lia. reflexivity.
  - replace (min j n') with n' by lia. reflexivity.
Qed.

Lemma getitem_recorded_out_of_bounds (j : nat) :
  lib a = NumPy -> (n <= j)%nat ->
  getitem_recorded a j
  = Run [GetItem j n] (Raise (IndexError "index is out of bounds for axis 0")).
Proof using a_shape.
  intros Hlib Hle. unfold getitem_recorded, getitem, shape_at.
  rewrite a_shape, Hlib. cbn.
  destruct (decide (j < n)%nat) as [Hlt|_]; [lia | reflexivity].
Qed.

(** A cell within the axis. *)
Lemma facet_cell_in_range (i ax : nat) :
  (i < n)%nat -> titles_cover titles (S i) ->
  exists tr,
    facet_cell plot a titles n i ax = Run tr (Ok tt)
    /\ images tr = [(ax, img (leading_entry a i rest))]
    /\ indexed tr = [(i, n)] /\ removed tr = [].
Proof using a_shape plot_ok post_plain.
  intros Hlt Hcover. unfold facet_cell.
  rewrite (getitem_recorded_in_range a n i rest a_shape Hlt), run_bind_Run_ok.
  rewrite plot_ok, run_bind_Run_ok.
  destruct (remove_or_title_in_range titles (S i) i ax Hcover ltac:(lia))
    as (tl & Htl & _).
  assert (remove_or_title titles n i ax = remove_or_title titles (S i) i ax)
    as Hsame.
  { unfold remove_or_title.
    destruct (decide (n <= i)%nat); [lia|].
    destruct (decide (S i <= i)%nat); [lia | reflexivity]. }
  rewrite Hsame, Htl. cbn [trace outcome app].
  eexists. split; [reflexivity|].
  destruct (post_plain ax) as (Him & Hidx & Hrem).
  assert (images tl = [] /\ indexed tl = [] /\ removed tl = []) as (Him' & Hidx' & Hrem').
  { revert Htl. unfold remove_or_title.
    destruct (decide (S i <= i)%nat); [lia|].
    destruct titles as [ts|].
    - unfold mbind, run_mbind, lift, list_getitem.
      destruct (ts !! i); cbn; intros Heq; [|discriminate Heq].
      injection Heq as <-. repeat split.
    - cbn. intros Heq. injection Heq as <-. repeat split. }
  unfold images, indexed, removed in *. cbn [omap list_omap].
  rewrite !omap_app, Him, Hidx, Hrem, Him', Hidx', Hrem'. repeat split.
Qed.

(** A surplus cell of a jax input: the last entry once more, then removed. *)
Lemma facet_cell_surplus_clamped (n' i ax : nat) :
  lib a = Jax -> n = S n' -> (n <= i)%nat ->
  exists tr,
    facet_cell plot a titles n i ax = Run tr (Ok tt)
    /\ images tr = [(ax, img (leading_entry a n' rest))]
    /\ indexed tr = [(i, n)] /\ removed tr = [ax].
Proof using a_shape plot_ok post_plain.
  intros Hlib Hn Hle. unfold facet_cell.
  rewrite (getitem_recorded_clamped n' i Hlib Hn), run_bind_Run_ok.
  replace (min i n') with n' by lia.
  rewrite plot_ok, run_bind_Run_ok.
  unfold remove_or_title. destruct (decide (n <= i)%nat) as [_|Hgt]; [|lia].
  cbn [trace outcome app emit].
  eexists. split; [reflexivity|].
  destruct (post_plain ax) as (Him & Hidx & Hrem).
  unfold images, indexed, removed in *. cbn [omap list_omap].
  rewrite !omap_app, Him, Hidx, Hrem. repeat split.
Qed.

Lemma run_eta {A : Type} (m : run A) : m = Run (trace m) (outcome m).
Proof. destruct m. reflexivity. Qed.

Lemma facet_loop_in_range (more : list nat) (len i : nat) :
  (i + len <= n)%nat -> titles_cover titles (i + len) ->
  exists tr,
    for_enumerate (facet_cell plot a titles n) i (seq i len ++ more)
    = Run (tr ++ trace (for_enumerate (facet_cell plot a titles n)
                          (i + len) more))
          (outcome (for_enumerate (facet_cell plot a titles n) (i + len) more))
    /\ images tr = map (fun j => (j, img (leading_entry a j rest))) (seq i len)
    /\ indexed tr = map (fun j => (j, n)) (seq i len)
    /\ removed tr = [].
Proof using a_shape plot_ok post_plain.
  revert i. induction len as [|len IH]; intros i Hle Hcover.
  - exists []. rewrite Nat.add_0_r. cbn [seq app].
    split; [apply run_eta | repeat split].
  - cbn [seq app for_enumerate].
    destruct (facet_cell_in_range i i ltac:(lia)) as (tr & Hcell & Him & Hidx & Hrem).
    { destruct titles; cbn in *; [lia | exact I]. }
    destruct (IH (S i) ltac:(lia)) as (tr' & Hloop & Him' & Hidx' & Hrem').
    { replace (S i + len)%nat with (i + S len)%nat by lia. exact Hcover. }
    rewrite Hcell, run_bind_Run_ok, Hloop. cbn [trace outcome].
    replace (S i + len)%nat with (i + S len)%nat by lia.
    exists (tr ++ tr'). split; [rewrite app_assoc; reflexivity|].
    unfold images, indexed, removed in *. rewrite !omap_app.
    rewrite Him, Hidx, Hrem, Him', Hidx', Hrem'. repeat split.
Qed.

Lemma facet_loop_surplus_clamped (n' len i : nat) :
  lib a = Jax -> n = S n' -> (n <= i)%nat ->
  exists tr,
    for_enumerate (facet_cell plot a titles n) i (seq i len) = Run tr (Ok tt)
    /\ images tr = map (fun j => (j, img (leading_entry a n' rest))) (seq i len)
    /\ indexed tr = map (fun j => (j, n)) (seq i len)
    /\ removed tr = seq i len.
Proof using a_shape plot_ok post_plain.
  intros Hlib Hn. revert i. induction len as [|len IH]; intros i Hle.
  - exists []. repeat split.
  - cbn [seq for_enumerate].
    destruct (facet_cell_surplus_clamped n' i i Hlib Hn Hle)
      as (tr & Hcell & Him & Hidx & Hrem).
    destruct (IH (S i) ltac:(lia)) as (tr' & Hloop & Him' & Hidx' & Hrem').
    rewrite Hcell, run_bind_Run_ok, Hloop. cbn [trace outcome].
    exists (tr ++ tr'). split; [reflexivity|].
    unfold images, indexed, removed in *. rewrite !omap_app.
    rewrite Him, Hidx, Hrem, Him', Hidx', Hrem'. repeat split.
Qed.
End FacetLoops.

Section FacetRunsGeneric.
Import Viz VizTrace.

Variable plot : ndarray -> nat -> run unit.
Variable a : ndarray.
Variable n : nat.
Variable rest : list nat.
Variable titles : option (list string).
Variable img : ndarray -> ndarray.
Variable vmin vmax : float.
Variable ext : number * number * number * number.
Variable post : nat -> list event.

Hypothesis a_shape : shape a = n :: rest.
Hypothesis plot_ok :
  forall i ax,
    plot (leading_entry a i rest) ax
    = Run (Imshow ax (img (leading_entry a i rest)) vmin vmax ext :: post ax)
          (Ok tt).
Hypothesis post_plain :
  forall ax,
    images (post ax) = [] /\ indexed (post ax) = [] /\ removed (post ax) = [].

(** A jax input: every cell is drawn, the surplus ones with the last entry,
    and the surplus axes are removed afterwards. *)
Lemma facet_loop_clamped (n' cells : nat) :
  lib a = Jax -> n = S n' -> titles_cover titles (min n cells) ->
  exists tr,
    for_enumerate (facet_cell plot a titles n) 0 (seq 0 cells) = Run tr (Ok tt)
    /\ images tr
       = map (fun j => (j, img (leading_entry a (min j n') rest))) (seq 0 cells)
    /\ indexed tr = map (fun j => (j, n)) (seq 0 cells)
    /\ removed tr = seq n (cells - n).
Proof using a_shape plot_ok post_plain.
  intros Hlib Hn Hcover.
  set (m := min n cells) in *.
  assert (seq 0 cells = seq 0 m ++ seq (0 + m) (cells - m)) as Hsplit
    by (rewrite <- seq_app; f_equal; lia).
  destruct (facet_loop_in_range plot a n rest titles img vmin vmax ext post
              a_shape plot_ok post_plain (seq (0 + m) (cells - m)) m 0
              ltac:(lia) Hcover) as (tr & Hloop & Him & Hidx & Hrem).
  assert (exists tr',
             for_enumerate (facet_cell plot a titles n) (0 + m)
               (seq (0 + m) (cells - m)) = Run tr' (Ok tt)
             /\ images tr'
                = map (fun j => (j, img (leading_entry a n' rest)))
                    (seq (0 + m) (cells - m))
             /\ indexed tr' = map (fun j => (j, n)) (seq (0 + m) (cells - m))
             /\ removed tr' = seq n (cells - n))
    as (tr' & Hloop' & Him' & Hidx' & Hrem').
  { destruct (decide (n <= cells)%nat) as [Hle|Hgt].
    - replace m with n by lia.
      destruct (facet_loop_surplus_clamped plot a n rest titles img vmin vmax
                  ext post a_shape plot_ok post_plain n' (cells - n) (0 + n)
                  Hlib Hn ltac:(lia)) as (tr' & H1 & H2 & H3 & H4).
      exists tr'. repeat split; assumption.
    - replace (cells - m)%nat with 0%nat by lia.
      replace (cells - n)%nat with 0%nat by lia.
      exists []. repeat split. }
  exists (tr ++ tr'). split.
  { rewrite Hsplit, Hloop, Hloop'. reflexivity. }
  unfold images, indexed, removed in *. rewrite !omap_app.
  rewrite Him, Hidx, Hrem, Him', Hidx', Hrem'.
  rewrite Hsplit, !map_app. split; [|split; reflexivity].
  f_equal; apply map_ext_in; intros j Hj; apply in_seq in Hj.
  - replace (min j n') with j by lia. reflexivity.
  - destruct (decide (n <= cells)%nat).
    + replace (min j n') with n' by lia. reflexivity.
    + lia.
Qed.

(** A NumPy input with room left in the grid: the entries are drawn, the
    index past the end raises, and nothing is removed. *)
Lemma facet_loop_out_of_bounds (cells : nat) :
  lib a = NumPy -> (n < cells)%nat -> titles_cover titles n ->
  exists tr,
    for_enumerate (facet_cell plot a titles n) 0 (seq 0 cells)
    = Run tr (Raise (IndexError "index is out of bounds for axis 0"))
    /\ images tr = map (fun j => (j, img (leading_entry a j rest))) (seq 0 n)
    /\ indexed tr = map (fun j => (j, n)) (seq 0 (S n))
    /\ removed tr = [].
Proof using a_shape plot_ok post_plain.
  intros Hlib Hlt Hcover.
  assert (seq 0 cells = seq 0 n ++ n :: seq (S n) (cells - S n)) as Hsplit.
  { replace cells with (n + S (cells - S n))%nat at 1 by lia.
    rewrite seq_app. reflexivity. }
  destruct (facet_loop_in_range plot a n rest titles img vmin vmax ext post
              a_shape plot_ok post_plain (n :: seq (S n) (cells - S n)) n 0
              ltac:(lia) Hcover) as (tr & Hloop & Him & Hidx & Hrem).
  exists (tr ++ [GetItem n n]). split.
  { rewrite Hsplit, Hloop. cbn [Nat.add for_enumerate].
    assert (facet_cell plot a titles n n n
            = Run [GetItem n n]
                (Raise (IndexError "index is out of bounds for axis 0")))
      as Hcell.
    { unfold facet_cell.
      rewrite (getitem_recorded_out_of_bounds a n rest a_shape n Hlib
                 ltac:(lia)).
      reflexivity. }
    rewrite Hcell. reflexivity. }
  unfold images, indexed, removed in *. rewrite !omap_app.
  rewrite Him, Hidx, Hrem. cbn [omap list_omap].
  rewrite !app_nil_r. split; [reflexivity|]. split; [|reflexivity].
  rewrite seq_S, map_app. reflexivity.
Qed.

(** Titles that run out: the first cell without a title is drawn, then the
    lookup of its title raises. *)
Lemma facet_loop_titles_run_out (ts : list string) (cells : nat) :
  titles = Some ts -> (length ts < n)%nat -> (length ts < cells)%nat ->
  exists tr,
    for_enumerate (facet_cell plot a titles n) 0 (seq 0 cells)
    = Run tr (Raise (IndexError "list index out of range"))
    /\ images tr
       = map (fun j => (j, img (leading_entry a j rest))) (seq 0 (S (length ts)))
    /\ indexed tr = map (fun j => (j, n)) (seq 0 (S (length ts)))
    /\ removed tr = [].
Proof using a_shape plot_ok post_plain.
  intros Htitles Hn Hcells.
  set (k := length ts) in *.
  assert (seq 0 cells = seq 0 k ++ k :: seq (S k) (cells - S k)) as Hsplit.
  { replace cells with (k + S (cells - S k))%nat at 1 by lia.
    rewrite seq_app. reflexivity. }
  destruct (facet_loop_in_range plot a n rest titles img vmin vmax ext post
              a_shape plot_ok post_plain (k :: seq (S k) (cells - S k)) k 0
              ltac:(lia)) as (tr & Hloop & Him & Hidx & Hrem).
  { rewrite Htitles. cbn. lia. }
  assert (remove_or_title titles n k k
          = Run [] (Raise (IndexError "list index out of range"))) as Htl.
  { unfold remove_or_title. destruct (decide (n <= k)%nat); [lia|].
    rewrite Htitles. unfold mbind, run_mbind, lift, list_getitem.
    rewrite (lookup_ge_None_2 ts k) by (unfold k; lia). reflexivity. }
  assert (facet_cell plot a titles n k k
          = Run (GetItem k n
                 :: Imshow k (img (leading_entry a k rest)) vmin vmax ext
                 :: post k)
                (Raise (IndexError "list index out of range"))) as Hcell.
  { unfold facet_cell.
    rewrite (getitem_recorded_in_range a n k rest a_shape Hn),
      run_bind_Run_ok, plot_ok, run_bind_Run_ok, Htl.
    cbn [trace outcome app]. rewrite app_nil_r. reflexivity. }
  exists (tr ++ GetItem k n
                :: Imshow k (img (leading_entry a k rest)) vmin vmax ext
                :: post k).
  split.
  { rewrite Hsplit, Hloop. cbn [Nat.add for_enumerate].
    rewrite Hcell. reflexivity. }
  destruct (post_plain k) as (Him' & Hidx' & Hrem').
  unfold images, indexed, removed in *. rewrite !omap_app.
  rewrite Him, Hidx, Hrem. cbn [omap list_omap].
  rewrite Him', Hidx', Hrem'.
  rewrite !seq_S, !map_app. repeat split.
Qed.
End FacetRunsGeneric.

Section ImageFacetRuns.
Import Viz VizTrace.

Lemma labels_2d_plain (ax : nat) :
  images [SetXLabel ax "x_0"; SetYLabel ax "x_1"; SetAspect ax "equal"] = []
  /\ indexed [SetXLabel ax "x_0"; SetYLabel ax "x_1"; SetAspect ax "equal"] = []
  /\ removed [SetXLabel ax "x_0"; SetYLabel ax "x_1"; SetAspect ax "equal"] = [].
Proof. repeat split. Qed.

Lemma labels_spatio_temporal_plain (ax : nat) :
  images [SetXLabel ax "Time"; SetYLabel ax "Space"] = []
  /\ indexed [SetXLabel ax "Time"; SetYLabel ax "Space"] = []
  /\ removed [SetXLabel ax "Time"; SetYLabel ax "Space"] = [].
Proof. repeat split. Qed.

Lemma plot_state_2d_entry (states : ndarray) (c h w : nat)
    (vlim : float * float) (domain_extent : option float) :
  (c = 1 \/ c = 3 \/ c = 4)%nat ->
  exists ext,
    forall i ax,
      plot_state_2d (leading_entry states i [c; h; w]) vlim domain_extent (Some ax)
      = Run (Imshow ax (state_2d_image (leading_entry states i [c; h; w]))
               vlim.1 vlim.2 ext
             :: [SetXLabel ax "x_0"; SetYLabel ax "x_1"; SetAspect ax "equal"])
            (Ok tt).
Proof.
  intros Hc.
  exists (let space_range :=
            match domain_extent with
            | Some domain_extent => (Int 0, Float domain_extent)
            | None => (Int 0, Int (Z.of_nat w))
            end in
          (space_range.1, space_range.2, space_range.1, space_range.2)).
  intros i ax. destruct Hc as [->|[->| ->]]; reflexivity.
Qed.

Lemma plot_spatio_temporal_entry (trjs : ndarray) (T C N : nat)
    (vlim : float * float) (domain_extent dt : option float)
    (include_init : bool) :
  exists ext,
    forall i ax,
      plot_spatio_temporal (leading_entry trjs i [T; S C; N]) vlim (Some ax)
        domain_extent dt include_init
      = Run (Imshow ax
               (spatio_temporal_image (leading_entry trjs i [T; S C; N]))
               vlim.1 vlim.2 ext
             :: [SetXLabel ax "Time"; SetYLabel ax "Space"])
            (Ok tt).
Proof.
  exists (let space_range :=
            match domain_extent with
            | Some domain_extent => (Int 0, Float domain_extent)
            | None => (Int 0, Int (Z.of_nat (S C)))
            end in
          let time_range :=
            match dt with
            | Some dt =>
                let time_range := (Int 0, Float (dt * float_of_nat T)) in
                if negb include_init then (Float dt, time_range.2)
                else time_range
            | None => (Int 0, Int (Z.of_nat T - 1))
            end in
          (time_range.1, time_range.2, space_range.1, space_range.2)).
  intros i ax. reflexivity.
Qed.

Lemma plot_state_2d_facet_as_loop (states : ndarray) (n c h w nrows ncols : nat)
    (vlim : float * float) (titles : option (list string))
    (domain_extent : option float) :
  shape states = [n; c; h; w] -> (2 <= nrows * ncols)%nat ->
  plot_state_2d_facet states false vlim (nrows, ncols) titles domain_extent
  = Run (Subplots nrows ncols
         :: trace (for_enumerate
                     (facet_cell
                        (fun s ax => plot_state_2d s vlim domain_extent (Some ax))
                        states titles n) 0 (seq 0 (nrows * ncols))))
        (outcome (for_enumerate
                    (facet_cell
                       (fun s ax => plot_state_2d s vlim domain_extent (Some ax))
                       states titles n) 0 (seq 0 (nrows * ncols)))).
Proof.
  intros Hshape Hcells.
  unfold plot_state_2d_facet, ndim, shape_at. rewrite Hshape.
  cbn [length nth fst snd]. unfold mbind, run_mbind, mret, run_mret, run_ret.
  destruct (decide (4 <> 4)%nat) as [Hne|_]; [contradiction|].
  rewrite run_bind_Run_ok, (subplots_grid nrows ncols Hcells), run_bind_Run_ok.
  cbn [flatten trace app]. unfold mret, run_mret, run_ret.
  rewrite run_bind_Run_ok. reflexivity.
Qed.

Lemma plot_spatio_temporal_facet_over_batch_as_loop (trjs : ndarray)
    (n T C N nrows ncols : nat) (vlim : float * float)
    (titles : option (list string)) (domain_extent dt : option float)
    (include_init : bool) :
  shape trjs = [n; T; C; N] -> (2 <= nrows * ncols)%nat ->
  plot_spatio_temporal_facet trjs false vlim (nrows, ncols) titles
    domain_extent dt include_init
  = Run (Subplots nrows ncols
         :: trace (for_enumerate
                     (facet_cell
                        (fun s ax => plot_spatio_temporal s vlim (Some ax)
                                       domain_extent dt include_init)
                        trjs titles n) 0 (seq 0 (nrows * ncols))))
        (outcome (for_enumerate
                    (facet_cell
                       (fun s ax => plot_spatio_temporal s vlim (Some ax)
                                      domain_extent dt include_init)
                       trjs titles n) 0 (seq 0 (nrows * ncols)))).
Proof.
  intros Hshape Hcells.
  unfold plot_spatio_temporal_facet, ndim. rewrite Hshape.
  cbn [length fst snd]. unfold mbind, run_mbind, mret, run_mret, run_ret.
  destruct (decide (4 <> 4)%nat) as [Hne|_]; [contradiction|].
  rewrite run_bind_Run_ok, (subplots_grid nrows ncols Hcells), !run_bind_Run_ok.
  cbn [flatten trace app]. unfold mret, run_mret, run_ret.
  rewrite run_bind_Run_ok. unfold shape_at. rewrite Hshape. reflexivity.
Qed.

Lemma channels_first_shape (trjs : ndarray) (T n N : nat) :
  shape trjs = [T; n; N] ->
  shape (channels_first trjs) = [n; T; 1; N]%nat
  /\ lib (channels_first trjs) = Jax
  /\ swapaxes01 trjs ≫= new_axis2 = Ok (channels_first trjs).
Proof.
  intros Hshape. unfold channels_first, swapaxes01. rewrite Hshape.
  cbn. repeat split.
Qed.

Lemma plot_spatio_temporal_facet_over_channels_as_loop (trjs : ndarray)
    (n T N nrows ncols : nat) (vlim : float * float)
    (titles : option (list string)) (domain_extent dt : option float)
    (include_init : bool) :
  shape trjs = [T; n; N] -> (2 <= nrows * ncols)%nat ->
  plot_spatio_temporal_facet trjs true vlim (nrows, ncols) titles
    domain_extent dt include_init
  = Run (Subplots nrows ncols
         :: trace (for_enumerate
                     (facet_cell
                        (fun s ax => plot_spatio_temporal s vlim (Some ax)
                                       domain_extent dt include_init)
                        (channels_first trjs) titles n) 0
                     (seq 0 (nrows * ncols))))
        (outcome (for_enumerate
                    (facet_cell
                       (fun s ax => plot_spatio_temporal s vlim (Some ax)
                                      domain_extent dt include_init)
                       (channels_first trjs) titles n) 0
                    (seq 0 (nrows * ncols)))).
Proof.
  intros Hshape Hcells.
  unfold plot_spatio_temporal_facet, ndim. rewrite Hshape.
  cbn [length fst snd]. unfold mbind, run_mbind, mret, run_mret, run_ret.
  destruct (decide (3 <> 3)%nat) as [Hne|_]; [contradiction|].
  rewrite run_bind_Run_ok, (subplots_grid nrows ncols Hcells), run_bind_Run_ok.
  unfold channels_first, swapaxes01. rewrite Hshape. unfold lift.
  rewrite run_bind_Run_ok. cbn [new_axis2 shape trace outcome app].
  rewrite run_bind_Run_ok.
  cbn [flatten trace app shape_at shape nth]. unfold mret, run_mret, run_ret.
  rewrite run_bind_Run_ok. reflexivity.
Qed.
End ImageFacetRuns.

(** X8. With a NumPy input and room left in the grid, the batch facets
    ([plot_state_2d_facet] on four-axis inputs whose states have 1, 3 or 4
    channels, [plot_spatio_temporal_facet] on four-axis inputs with a first
    channel) draw every entry of the leading axis on the axes of its index,
    then index one past the end and end in [IndexError]: the surplus axes
    are never removed. *)
Theorem batch_facets_end_in_index_error_on_numpy_input
    (a : Viz.ndarray) (n nrows ncols : nat) (vlim : float * float)
    (titles : option (list string)) (domain_extent dt : option float)
    (include_init : bool) :
  Viz.lib a = Viz.NumPy ->
  (n < nrows * ncols)%nat ->
  (2 <= nrows * ncols)%nat ->
  Viz.titles_cover titles n ->
  (forall c h w,
     Viz.shape a = [n; c; h; w] ->
     (c = 1 \/ c = 3 \/ c = 4)%nat ->
     let r := Viz.plot_state_2d_facet a false vlim (nrows, ncols) titles
                domain_extent in
     Viz.outcome r = Raise (IndexError "index is out of bounds for axis 0")
     /\ VizTrace.images (Viz.trace r)
        = map (fun j => (j, VizTrace.state_2d_image
                              (Viz.leading_entry a j [c; h; w]))) (seq 0 n)
     /\ VizTrace.indexed (Viz.trace r) = map (fun j => (j, n)) (seq 0 (S n))
     /\ VizTrace.removed (Viz.trace r) = [])
  /\ (forall T C N,
        Viz.shape a = [n; T; S C; N] ->
        let r := Viz.plot_spatio_temporal_facet a false vlim (nrows, ncols)
                   titles domain_extent dt include_init in
        Viz.outcome r = Raise (IndexError "index is out of bounds for axis 0")
        /\ VizTrace.images (Viz.trace r)
           = map (fun j => (j, VizTrace.spatio_temporal_image
                                 (Viz.leading_entry a j [T; S C; N])))
               (seq 0 n)
        /\ VizTrace.indexed (Viz.trace r) = map (fun j => (j, n)) (seq 0 (S n))
        /\ VizTrace.removed (Viz.trace r) = []).
Proof.
  intros Hlib Hlt Hcells Hcover. split.
  - intros c h w Hshape Hc r. subst r.
    rewrite (plot_state_2d_facet_as_loop a n c h w nrows ncols vlim titles
               domain_extent Hshape Hcells).
    destruct (plot_state_2d_entry a c h w vlim domain_extent Hc)
      as [ext Hplot].
    destruct (facet_loop_out_of_bounds
                (fun s ax => Viz.plot_state_2d s vlim domain_extent (Some ax))
                a n [c; h; w] titles
                VizTrace.state_2d_image vlim.1 vlim.2 ext
                (fun ax => [Viz.SetXLabel ax "x_0"; Viz.SetYLabel ax "x_1";
                            Viz.SetAspect ax "equal"])
                Hshape Hplot
                labels_2d_plain (nrows * ncols) Hlib Hlt Hcover)
      as (tr & Hloop & Him & Hidx & Hrem).
    rewrite Hloop. cbn [Viz.trace Viz.outcome]. repeat split; assumption.
  - intros T C N Hshape r. subst r.
    rewrite (plot_spatio_temporal_facet_over_batch_as_loop a n T (S C) N nrows
               ncols vlim titles domain_extent dt include_init Hshape Hcells).
    destruct (plot_spatio_temporal_entry a T C N vlim domain_extent dt
                include_init) as [ext Hplot].
    destruct (facet_loop_out_of_bounds
                (fun s ax => Viz.plot_spatio_temporal s vlim (Some ax)
                               domain_extent dt include_init)
                a n [T; S C; N] titles
                VizTrace.spatio_temporal_image vlim.1 vlim.2 ext
                (fun ax => [Viz.SetXLabel ax "Time"; Viz.SetYLabel ax "Space"])
                Hshape Hplot
                labels_spatio_temporal_plain (nrows * ncols) Hlib Hlt Hcover)
      as (tr & Hloop & Him & Hidx & Hrem).
    rewrite Hloop. cbn [Viz.trace Viz.outcome]. repeat split; assumption.
Qed.

Lemma batch_facets_end_in_index_error_on_numpy_input_witness :
  let r := Viz.plot_state_2d_facet (Viz.ramp Viz.NumPy [2; 1; 3; 3]%nat) false
             (-1, 1)%float (2, 2)%nat (Some ["a"; "b"]) None in
  Viz.outcome r = Raise (IndexError "index is out of bounds for axis 0")
  /\ VizTrace.images (Viz.trace r)
     = map (fun j => (j, VizTrace.state_2d_image
                           (Viz.leading_entry
                              (Viz.ramp Viz.NumPy [2; 1; 3; 3]%nat) j
                              [1; 3; 3]%nat))) [0; 1]%nat
  /\ VizTrace.indexed (Viz.trace r) = [(0, 2); (1, 2); (2, 2)]%nat
  /\ VizTrace.removed (Viz.trace r) = [].
Proof.
  destruct (batch_facets_end_in_index_error_on_numpy_input
              (Viz.ramp Viz.NumPy [2; 1; 3; 3]%nat) 2 2 2 (-1, 1)%float
              (Some ["a"; "b"]) None None false eq_refl ltac:(cbn; lia)
              ltac:(cbn; lia) ltac:(cbn; lia)) as [H2d _].
  exact (H2d 1 3 3 eq_refl ltac:(lia))%nat.
Defined.

(** X9. With a jax input the batch facets run to the end: an index past the
    end is clamped, so every cell of the grid is drawn, a surplus cell with
    the last entry of the leading axis once more, and exactly the surplus
    axes are removed afterwards.  The states of [plot_state_2d_facet] have
    1, 3 or 4 channels, the trajectories of [plot_spatio_temporal_facet] a
    first channel. *)
Theorem batch_facets_redraw_last_entry_on_jax_input
    (a : Viz.ndarray) (n' nrows ncols : nat) (vlim : float * float)
    (titles : option (list string)) (domain_extent dt : option float)
    (include_init : bool) :
  Viz.lib a = Viz.Jax ->
  (2 <= nrows * ncols)%nat ->
  Viz.titles_cover titles (min (S n') (nrows * ncols)) ->
  (forall c h w,
     Viz.shape a = [S n'; c; h; w] ->
     (c = 1 \/ c = 3 \/ c = 4)%nat ->
     let r := Viz.plot_state_2d_facet a false vlim (nrows, ncols) titles
                domain_extent in
     Viz.outcome r = Ok tt
     /\ VizTrace.images (Viz.trace r)
        = map (fun j => (j, VizTrace.state_2d_image
                              (Viz.leading_entry a (min j n') [c; h; w])))
            (seq 0 (nrows * ncols))
     /\ VizTrace.indexed (Viz.trace r)
        = map (fun j => (j, S n')) (seq 0 (nrows * ncols))
     /\ VizTrace.removed (Viz.trace r) = seq (S n') (nrows * ncols - S n'))
  /\ (forall T C N,
        Viz.shape a = [S n'; T; S C; N] ->
        let r := Viz.plot_spatio_temporal_facet a false vlim (nrows, ncols)
                   titles domain_extent dt include_init in
        Viz.outcome r = Ok tt
        /\ VizTrace.images (Viz.trace r)
           = map (fun j => (j, VizTrace.spatio_temporal_image
                                 (Viz.leading_entry a (min j n') [T; S C; N])))
               (seq 0 (nrows * ncols))
        /\ VizTrace.indexed (Viz.trace r)
           = map (fun j => (j, S n')) (seq 0 (nrows * ncols))
        /\ VizTrace.removed (Viz.trace r)
           = seq (S n') (nrows * ncols - S n')).
Proof.
  intros Hlib Hcells Hcover. split.
  - intros c h w Hshape Hc r. subst r.
    rewrite (plot_state_2d_facet_as_loop a (S n') c h w nrows ncols vlim titles
               domain_extent Hshape Hcells).
    destruct (plot_state_2d_entry a c h w vlim domain_extent Hc)
      as [ext Hplot].
    destruct (facet_loop_clamped
                (fun s ax => Viz.plot_state_2d s vlim domain_extent (Some ax))
                a (S n') [c; h; w] titles
                VizTrace.state_2d_image vlim.1 vlim.2 ext
                (fun ax => [Viz.SetXLabel ax "x_0"; Viz.SetYLabel ax "x_1";
                            Viz.SetAspect ax "equal"])
                Hshape Hplot
                labels_2d_plain n' (nrows * ncols) Hlib eq_refl Hcover)
      as (tr & Hloop & Him & Hidx & Hrem).
    rewrite Hloop. cbn [Viz.trace Viz.outcome]. repeat split; assumption.
  - intros T C N Hshape r. subst r.
    rewrite (plot_spatio_temporal_facet_over_batch_as_loop a (S n') T (S C) N
               nrows ncols vlim titles domain_extent dt include_init Hshape
               Hcells).
    destruct (plot_spatio_temporal_entry a T C N vlim domain_extent dt
                include_init) as [ext Hplot].
    destruct (facet_loop_clamped
                (fun s ax => Viz.plot_spatio_temporal s vlim (Some ax)
                               domain_extent dt include_init)
                a (S n') [T; S C; N] titles
                VizTrace.spatio_temporal_image vlim.1 vlim.2 ext
                (fun ax => [Viz.SetXLabel ax "Time"; Viz.SetYLabel ax "Space"])
                Hshape Hplot
                labels_spatio_temporal_plain n' (nrows * ncols) Hlib eq_refl
                Hcover) as (tr & Hloop & Him & Hidx & Hrem).
    rewrite Hloop. cbn [Viz.trace Viz.outcome]. repeat split; assumption.
Qed.

Lemma batch_facets_redraw_last_entry_on_jax_input_witness :
  let a := Viz.ramp Viz.Jax [2; 3; 1; 4]%nat in
  let r := Viz.plot_spatio_temporal_facet a false (-1, 1)%float (1, 4)%nat
             None None None false in
  Viz.outcome r = Ok tt
  /\ VizTrace.images (Viz.trace r)
     = map (fun j => (j, VizTrace.spatio_temporal_image
                           (Viz.leading_entry a (min j 1) [3; 1; 4]%nat)))
         [0; 1; 2; 3]%nat
  /\ VizTrace.indexed (Viz.trace r) = [(0, 2); (1, 2); (2, 2); (3, 2)]%nat
  /\ VizTrace.removed (Viz.trace r) = [2; 3]%nat.
Proof.
  intros a r.
  destruct (batch_facets_redraw_last_entry_on_jax_input a 1 1 4 (-1, 1)%float
              None None None false eq_refl ltac:(cbn; lia) I) as [_ Hst].
  exact (Hst 3 0 4 eq_refl)%nat.
Defined.

(** X10. Faceting a trajectory over its channels never fails on the surplus
    cells, whatever library the input comes from: [jnp.swapaxes] hands back
    a jax array, so the index past the end is clamped.  The cell [c] shows
    channel [c] (space, wrapped around, against time); every surplus cell
    shows the last channel again and is removed afterwards. *)
Theorem plot_spatio_temporal_facet_over_channels_run
    (trjs : Viz.ndarray) (T n' N nrows ncols : nat) (vlim : float * float)
    (titles : option (list string)) (domain_extent dt : option float)
    (include_init : bool) :
  Viz.shape trjs = [T; S n'; N] ->
  (2 <= nrows * ncols)%nat ->
  Viz.titles_cover titles (min (S n') (nrows * ncols)) ->
  let r := Viz.plot_spatio_temporal_facet trjs true vlim (nrows, ncols) titles
             domain_extent dt include_init in
  let image c :=
    VizTrace.spatio_temporal_image
      (Viz.leading_entry (VizTrace.channels_first trjs) c [T; 1; N]%nat) in
  Viz.outcome r = Ok tt
  /\ VizTrace.images (Viz.trace r)
     = map (fun j => (j, image (min j n'))) (seq 0 (nrows * ncols))
  /\ VizTrace.removed (Viz.trace r) = seq (S n') (nrows * ncols - S n')
  /\ forall c x t,
       Viz.shape (image c) = [S N; T]
       /\ Viz.entry (image c) [x; t] = Viz.entry trjs [t; c; (x mod N)%nat].
Proof.
  intros Hshape Hcells Hcover r image. subst r.
  rewrite (plot_spatio_temporal_facet_over_channels_as_loop trjs (S n') T N
             nrows ncols vlim titles domain_extent dt include_init Hshape
             Hcells).
  destruct (channels_first_shape trjs T (S n') N Hshape) as (Hshape' & Hlib & _).
  destruct (plot_spatio_temporal_entry (VizTrace.channels_first trjs) T 0 N vlim
              domain_extent dt include_init) as [ext Hplot].
  destruct (facet_loop_clamped
                (fun s ax => Viz.plot_spatio_temporal s vlim (Some ax)
                               domain_extent dt include_init)
                (VizTrace.channels_first trjs) (S n')
              [T; 1; N]%nat titles VizTrace.spatio_temporal_image vlim.1 vlim.2
              ext
                (fun ax => [Viz.SetXLabel ax "Time"; Viz.SetYLabel ax "Space"])
                Hshape' Hplot labels_spatio_temporal_plain n'
              (nrows * ncols) Hlib eq_refl Hcover)
    as (tr & Hloop & Him & Hidx & Hrem).
  rewrite Hloop. cbn [Viz.trace Viz.outcome].
  split; [reflexivity|]. split; [exact Him|]. split; [exact Hrem|].
  intros c x t. subst image.
  destruct trjs as [l s e]. cbn in Hshape. subst s. split; reflexivity.
Qed.

Lemma plot_spatio_temporal_facet_over_channels_run_witness :
  let trjs := Viz.ramp Viz.NumPy [3; 2; 4]%nat in
  let r := Viz.plot_spatio_temporal_facet trjs true (-1, 1)%float (2, 2)%nat
             (Some ["u"; "v"]) None None false in
  let image c :=
    VizTrace.spatio_temporal_image
      (Viz.leading_entry (VizTrace.channels_first trjs) c [3; 1; 4]%nat) in
  Viz.outcome r = Ok tt
  /\ VizTrace.images (Viz.trace r)
     = [(0, image 0); (1, image 1); (2, image 1); (3, image 1)]%nat
  /\ VizTrace.removed (Viz.trace r) = [2; 3]%nat
  /\ forall c x t,
       Viz.shape (image c) = [5; 3]%nat
       /\ Viz.entry (image c) [x; t] = Viz.entry trjs [t; c; (x mod 4)%nat].
Proof.
  intros trjs r image.
  exact (plot_spatio_temporal_facet_over_channels_run trjs 3 1 4 2 2
           (-1, 1)%float (Some ["u"; "v"]) None None false eq_refl
           ltac:(cbn; lia) ltac:(cbn; lia)).
Defined.

(** X11. When the titles run out before the entries and the grid do, the
    batch facets draw the first entry without a title and then end in
    [IndexError] at the lookup of its title; no axes are removed.  The
    states of [plot_state_2d_facet] have 1, 3 or 4 channels, the trajectories
    of [plot_spatio_temporal_facet] a first channel. *)
Theorem batch_facets_end_in_index_error_when_titles_run_out
    (a : Viz.ndarray) (n nrows ncols : nat) (vlim : float * float)
    (ts : list string) (domain_extent dt : option float)
    (include_init : bool) :
  (length ts < n)%nat ->
  (length ts < nrows * ncols)%nat ->
  (2 <= nrows * ncols)%nat ->
  (forall c h w,
     Viz.shape a = [n; c; h; w] ->
     (c = 1 \/ c = 3 \/ c = 4)%nat ->
     let r := Viz.plot_state_2d_facet a false vlim (nrows, ncols) (Some ts)
                domain_extent in
     Viz.outcome r = Raise (IndexError "list index out of range")
     /\ VizTrace.images (Viz.trace r)
        = map (fun j => (j, VizTrace.state_2d_image
                              (Viz.leading_entry a j [c; h; w])))
            (seq 0 (S (length ts)))
     /\ VizTrace.removed (Viz.trace r) = [])
  /\ (forall T C N,
        Viz.shape a = [n; T; S C; N] ->
        let r := Viz.plot_spatio_temporal_facet a false vlim (nrows, ncols)
                   (Some ts) domain_extent dt include_init in
        Viz.outcome r = Raise (IndexError "list index out of range")
        /\ VizTrace.images (Viz.trace r)
           = map (fun j => (j, VizTrace.spatio_temporal_image
                                 (Viz.leading_entry a j [T; S C; N])))
               (seq 0 (S (length ts)))
        /\ VizTrace.removed (Viz.trace r) = []).
Proof.
  intros Hn Hlt Hcells. split.
  - intros c h w Hshape Hc r. subst r.
    rewrite (plot_state_2d_facet_as_loop a n c h w nrows ncols vlim (Some ts)
               domain_extent Hshape Hcells).
    destruct (plot_state_2d_entry a c h w vlim domain_extent Hc)
      as [ext Hplot].
    destruct (facet_loop_titles_run_out
                (fun s ax => Viz.plot_state_2d s vlim domain_extent (Some ax))
                a n [c; h; w] (Some ts)
                VizTrace.state_2d_image vlim.1 vlim.2 ext
                (fun ax => [Viz.SetXLabel ax "x_0"; Viz.SetYLabel ax "x_1";
                            Viz.SetAspect ax "equal"])
                Hshape Hplot
                labels_2d_plain ts (nrows * ncols) eq_refl Hn Hlt)
      as (tr & Hloop & Him & Hidx & Hrem).
    rewrite Hloop. cbn [Viz.trace Viz.outcome]. repeat split; assumption.
  - intros T C N Hshape r. subst r.
    rewrite (plot_spatio_temporal_facet_over_batch_as_loop a n T (S C) N nrows
               ncols vlim (Some ts) domain_extent dt include_init Hshape
               Hcells).
    destruct (plot_spatio_temporal_entry a T C N vlim domain_extent dt
                include_init) as [ext Hplot].
    destruct (facet_loop_titles_run_out
                (fun s ax => Viz.plot_spatio_temporal s vlim (Some ax)
                               domain_extent dt include_init)
                a n [T; S C; N] (Some ts)
                VizTrace.spatio_temporal_image vlim.1 vlim.2 ext
                (fun ax => [Viz.SetXLabel ax "Time"; Viz.SetYLabel ax "Space"])
                Hshape Hplot
                labels_spatio_temporal_plain ts (nrows * ncols) eq_refl Hn Hlt)
      as (tr & Hloop & Him & Hidx & Hrem).
    rewrite Hloop. cbn [Viz.trace Viz.outcome]. repeat split; assumption.
Qed.

Lemma batch_facets_end_in_index_error_when_titles_run_out_witness :
  let a := Viz.ramp Viz.Jax [3; 1; 2; 2]%nat in
  let r := Viz.plot_state_2d_facet a false (-1, 1)%float (2, 2)%nat
             (Some ["only"]) None in
  Viz.outcome r = Raise (IndexError "list index out of range")
  /\ VizTrace.images (Viz.trace r)
     = map (fun j => (j, VizTrace.state_2d_image
                           (Viz.leading_entry a j [1; 2; 2]%nat))) [0; 1]%nat
  /\ VizTrace.removed (Viz.trace r) = [].
Proof.
  intros a r.
  destruct (batch_facets_end_in_index_error_when_titles_run_out a 3 2 2
              (-1, 1)%float ["only"] None None false ltac:(cbn; lia)
              ltac:(cbn; lia) ltac:(cbn; lia)) as [H2d _].
  exact (H2d 1 2 2 eq_refl ltac:(lia))%nat.
Defined.

(** ** The evaluator and the presets *)

Section EvaluatorLemmas.
Context {A : Type} `{Scalar A}.




Lemma foldl_sadd_zeros (xs : list A) :
  (forall x : A, (szero + x)%S = x) ->
  Forall (fun x => x = szero) xs ->
  foldl sadd szero xs = szero.
Proof.
  intros add_zero_l Hxs. induction Hxs as [|x xs -> _ IH]; [reflexivity|].
  cbn. rewrite add_zero_l. exact IH.
Qed.

(** Where the derivative operator vanishes on every axis, so does the
    Laplace operator. *)
Lemma build_laplace_operator_zero_mode (derivative_operator : array A) (k : nat) :
  (forall x : A, (x * szero)%S = szero) ->
  (forall x : A, (szero + x)%S = x) ->
  derivative_operator <> [] ->
  Forall (fun row => row !! k = Some szero) derivative_operator ->
  exists laplace,
    build_laplace_operator derivative_operator 2 = [laplace]
    /\ laplace !! k = Some szero.
Proof.
  intros mul_zero_r add_zero_l Hne Hzero.
  destruct derivative_operator as [|r rs]; [contradiction|].
  apply Forall_cons in Hzero as [Hr Hrs].
  destruct (build_laplace_operator_one_row (r :: rs) 2) as [laplace Hlap].
  exists laplace. split; [exact Hlap|].
  assert (Forall2 (fun row y => row !! k = Some y) rs
            (replicate (length rs) szero)) as Hrs2.
  { clear Hlap Hne. induction Hrs as [|row rs Hrow _ IH]; cbn; constructor; assumption. }
  pose proof (build_laplace_operator_mode r rs k szero
                (replicate (length rs) szero) Hr Hrs2) as Hmode.
  rewrite Hlap in Hmode. cbn in Hmode. rewrite Hmode.
  f_equal. rewrite mul_zero_r. apply foldl_sadd_zeros; [exact add_zero_l|].
  apply Forall_fmap, Forall_forall. intros x Hx.
  apply elem_of_replicate in Hx as [-> _]. cbn. apply mul_zero_r.
Qed.
End EvaluatorLemmas.


(** A state of one mode per channel is stretched to the modes of the mask,
    and a state of four modes does not go with a mask of three. *)
Example BelousovZhabotinskyNonlinearFun_evaluate_broadcast :
  BelousovZhabotinskyNonlinearFun.evaluate (R := Z) (H1 := identity_FFT)
    (BaseNonlinearFun.__init__ (C := Z)
       (fun _ _ _ => [true; false; true]) 1 4 3 [[0; 1; 2]]%Z 0.5%float)
    [[1]; [3]; [5]]%Z
  = Ok [[0; 0; 0]; [-1; 0; -1]; [-4; 0; -4]]%Z
  /\ BelousovZhabotinskyNonlinearFun.evaluate (R := Z) (H1 := identity_FFT)
       (BaseNonlinearFun.__init__ (C := Z)
          (fun _ _ _ => [true; false; true]) 1 4 3 [[0; 1; 2]]%Z 0.5%float)
       [[1; 2; 3; 4]; [3; 4; 5; 6]; [5; 6; 7; 8]]%Z
     = Raise (TypeError "mul got incompatible shapes for broadcasting").
Proof. split; vm_compute; reflexivity. Qed.

(** X13. [evaluate] does not look at the number of channels of its input:
    indexing a jax array past the end is clamped, so an input of one or two
    channels is evaluated as if its last channel were repeated, and
    channels beyond the third (of the mask's shape) are ignored. *)
Theorem BelousovZhabotinskyNonlinearFun_evaluate_channel_count
    {R C : Type} `{Scalar R} `{Scalar C} `{FFT R C}
    (self : BelousovZhabotinskyNonlinearFun.t (C := C))
    (h0 h1 h2 : list C) (more : array C) :
  BelousovZhabotinskyNonlinearFun.evaluate (R := R) self [h0]
  = BelousovZhabotinskyNonlinearFun.evaluate (R := R) self [h0; h0; h0]
  /\ BelousovZhabotinskyNonlinearFun.evaluate (R := R) self [h0; h1]
     = BelousovZhabotinskyNonlinearFun.evaluate (R := R) self [h0; h1; h1]
  /\ (Forall (fun row => length row
                         = length (BaseNonlinearFun.dealiasing_mask self)) more ->
      BelousovZhabotinskyNonlinearFun.evaluate (R := R) self
        (h0 :: h1 :: h2 :: more)
      = BelousovZhabotinskyNonlinearFun.evaluate (R := R) self [h0; h1; h2]).
Proof.
  unfold BelousovZhabotinskyNonlinearFun.evaluate.
  set (mask := BaseNonlinearFun.dealiasing_mask self).
  split; [|split].
  - rewrite !mask_mul_cons.
    destruct (mask_mul_row mask h0); reflexivity.
  - rewrite !mask_mul_cons.
    destruct (mask_mul_row mask h0); [|reflexivity].
    destruct (mask_mul_row mask h1); reflexivity.
  - intros Hmore. rewrite !mask_mul_cons.
    rewrite (mask_mul_conforming mask more Hmore).
    destruct (mask_mul_row mask h0) as [d0|]; [|reflexivity].
    destruct (mask_mul_row mask h1) as [d1|]; [|reflexivity].
    destruct (mask_mul_row mask h2) as [d2|]; [|reflexivity].
    cbn [mask_mul mapM mbind mret result_bind result_ret Py.bind map].
    unfold jnp_getitem.
    set (u0 := irfftn _ _ d0).
    set (u1 := irfftn _ _ d1).
    set (u2 := irfftn _ _ d2).
    set (rest := map _ (map _ more)).
    destruct (last (u0 :: u1 :: u2 :: rest)) as [z|] eqn:Hlast.
    + reflexivity.
    + apply last_None in Hlast. discriminate Hlast.
Qed.

Example BelousovZhabotinskyNonlinearFun_evaluate_one_channel :
  BelousovZhabotinskyNonlinearFun.evaluate (R := Z) (H1 := identity_FFT)
    (BaseNonlinearFun.__init__ (C := Z)
       (fun _ _ _ => [true; false]) 1 2 3 [[0; 1]]%Z 0.5%float)
    [[2; 9]]%Z
  = Ok [[-4; 0]; [-4; 0]; [0; 0]]%Z.
Proof. vm_compute. reflexivity. Qed.


Lemma Z_sone_mul (x : Z) : (sone * x)%S = x.
Proof. change (1 * x = x)%Z. apply Z.mul_1_l. Qed.

Lemma Z_szero_mul (x : Z) : (szero * x)%S = szero.
Proof. reflexivity. Qed.


(** X15. Over exact arithmetic, [evaluate] sees only the modes the mask
    keeps: a state and its dealiased version have the same nonlinear
    term. *)
Theorem BelousovZhabotinskyNonlinearFun_evaluate_ignores_dropped_modes
    {R C : Type} `{Scalar R} `{Scalar C} `{FFT R C}
    (one_l : forall x : C, (sone * x)%S = x)
    (zero_l : forall x : C, (szero * x)%S = szero)
    (self : BelousovZhabotinskyNonlinearFun.t (C := C))
    (u_hat dealiased : array C) :
  mask_mul (BaseNonlinearFun.dealiasing_mask self) u_hat = Ok dealiased ->
  BelousovZhabotinskyNonlinearFun.evaluate (R := R) self dealiased
  = BelousovZhabotinskyNonlinearFun.evaluate (R := R) self u_hat.
Proof.
  intros Hmul. unfold BelousovZhabotinskyNonlinearFun.evaluate.
  rewrite (mask_mul_fixed_point one_l zero_l _ u_hat dealiased Hmul), Hmul.
  reflexivity.
Qed.

Lemma BelousovZhabotinskyNonlinearFun_evaluate_ignores_dropped_modes_witness :
  let self := BaseNonlinearFun.__init__ (C := Z)
                (fun _ _ _ => [true; false]) 1 2 3 [[0; 1]]%Z 0.5%float in
  BelousovZhabotinskyNonlinearFun.evaluate (R := Z) (H1 := identity_FFT) self
    [[1; 0]; [3; 0]; [5; 0]]%Z
  = BelousovZhabotinskyNonlinearFun.evaluate (R := Z) (H1 := identity_FFT) self
      [[1; 2]; [3; 4]; [5; 6]]%Z.
Proof.
  intros self.
  apply (BelousovZhabotinskyNonlinearFun_evaluate_ignores_dropped_modes
           (R := Z) (H1 := identity_FFT)
           Z_sone_mul Z_szero_mul self).
  reflexivity.
Defined.

(** X16. The linear operator of the Belousov-Zhabotinsky preset needs three
    diffusivities and reads no more than three: with fewer,
    [_build_linear_operator] raises [IndexError]; with three or more it
    returns three channels, and presets that agree on the first three
    diffusivities build the same operator. *)
Theorem BelousovZhabotinsky_build_linear_operator_reads_three_diffusivities
    {C : Type} `{Scalar C} (self : BelousovZhabotinsky.t)
    (derivative_operator : array C) :
  ((length (BelousovZhabotinsky.diffusivities self) < 3)%nat ->
   BelousovZhabotinsky._build_linear_operator self derivative_operator
   = Raise (IndexError "list index out of range"))
  /\ ((3 <= length (BelousovZhabotinsky.diffusivities self))%nat ->
      exists linear_operator,
        BelousovZhabotinsky._build_linear_operator self derivative_operator
        = Ok linear_operator
        /\ length linear_operator = 3%nat)
  /\ (forall other : BelousovZhabotinsky.t,
        take 3 (BelousovZhabotinsky.diffusivities other)
        = take 3 (BelousovZhabotinsky.diffusivities self) ->
        BelousovZhabotinsky._build_linear_operator other derivative_operator
        = BelousovZhabotinsky._build_linear_operator self derivative_operator).
Proof.
  unfold BelousovZhabotinsky._build_linear_operator.
  destruct (build_laplace_operator_one_row derivative_operator 2)
    as [laplace ->].
  split; [|split].
  - intros Hlen.
    destruct (BelousovZhabotinsky.diffusivities self) as [|d0 [|d1 [|d2 more]]];
      try reflexivity.
    cbn in Hlen. lia.
  - intros Hlen.
    destruct (BelousovZhabotinsky.diffusivities self) as [|d0 [|d1 [|d2 more]]];
      cbn in Hlen; try lia.
    eexists. split; reflexivity.
  - intros other Htake.
    destruct (BelousovZhabotinsky.diffusivities self) as [|d0 [|d1 [|d2 more]]];
      destruct (BelousovZhabotinsky.diffusivities other)
        as [|e0 [|e1 [|e2 more']]];
      cbn in Htake; try discriminate Htake; try reflexivity;
      injection Htake as -> -> ->; reflexivity.
Qed.

(** X17. The presets build their evaluators from their own construction
    parameters.  The Belousov-Zhabotinsky preset always asks for three
    channels, so the evaluator's check of the channel count cannot fail
    through it; the Fisher-KPP preset asks for one channel and the
    coefficients [[0, 0, -r]].  Both hand on their grid and their dealiasing
    fraction (1/2 and 2/3 unless the caller chose another), from which the
    evaluator's mask is built. *)
Theorem presets_build_their_evaluators
    {C : Type} (low_pass_mask : Z -> Z -> float -> list bool)
    (num_spatial_dims : Z) (domain_extent : float) (num_points : Z) (dt : float)
    (derivative_operator : array C) :
  (forall kw : BelousovZhabotinsky.kwargs,
     exists evaluator,
       BelousovZhabotinsky._build_nonlinear_fun low_pass_mask
         (BelousovZhabotinsky.__init__ num_spatial_dims domain_extent
            num_points dt kw) derivative_operator = Ok evaluator
       /\ BaseNonlinearFun.num_channels evaluator = 3%Z
       /\ BaseNonlinearFun.dealiasing_mask evaluator
          = low_pass_mask num_spatial_dims num_points
              (kwarg (1 / 2)%float (BelousovZhabotinsky.kw_dealiasing_fraction kw)))
  /\ (forall kw : FisherKPP.kwargs,
        let evaluator :=
          FisherKPP._build_nonlinear_fun low_pass_mask
            (FisherKPP.__init__ num_spatial_dims domain_extent num_points dt kw)
            derivative_operator in
        BaseNonlinearFun.num_channels (PolynomialNonlinearFun.base evaluator)
        = 1%Z
        /\ BaseNonlinearFun.dealiasing_mask (PolynomialNonlinearFun.base evaluator)
           = low_pass_mask num_spatial_dims num_points
               (kwarg (2 / 3)%float (FisherKPP.kw_dealiasing_fraction kw))
        /\ PolynomialNonlinearFun.coefficients evaluator
           = [0; 0; - kwarg 1 (FisherKPP.kw_r kw)]%float).
Proof.
  split.
  - intros kw. eexists. split; [reflexivity|]. split; reflexivity.
  - intros kw evaluator. repeat split.
Qed.

(** X18. Over exact arithmetic, at a Fourier mode where the derivative
    operator vanishes on every axis (the mean mode), the linear operator of
    the Allen-Cahn preset is the first-order coefficient, that of the
    Fisher-KPP preset is [r], and that of the Belousov-Zhabotinsky preset is
    zero in each of its three channels. *)
Theorem linear_operators_at_the_mean_mode
    {C : Type} `{Scalar C}
    (mul_zero_r : forall x : C, (x * szero)%S = szero)
    (add_zero_l : forall x : C, (szero + x)%S = x)
    (derivative_operator : array C) (k : nat) :
  derivative_operator <> [] ->
  Forall (fun row => row !! k = Some szero) derivative_operator ->
  (forall self : AllenCahn.t,
     AllenCahn._build_linear_operator self derivative_operator
       !! 0%nat ≫= (.!! k)
     = Some (of_float (AllenCahn.first_order_coefficient self)))
  /\ (forall self : FisherKPP.t,
        FisherKPP._build_linear_operator self derivative_operator
          !! 0%nat ≫= (.!! k)
        = Some (of_float (FisherKPP.r self)))
  /\ (forall self : BelousovZhabotinsky.t,
        (3 <= length (BelousovZhabotinsky.diffusivities self))%nat ->
        exists linear_operator,
          BelousovZhabotinsky._build_linear_operator self derivative_operator
          = Ok linear_operator
          /\ forall c : nat, (c < 3)%nat ->
               linear_operator !! c ≫= (.!! k) = Some szero).
Proof.
  intros Hne Hzero.
  destruct (build_laplace_operator_zero_mode derivative_operator k mul_zero_r
              add_zero_l Hne Hzero) as (laplace & Hlap & Hk).
  split; [|split].
  - intros self.
    unfold AllenCahn._build_linear_operator, array_add_float, float_mul_array.
    rewrite Hlap. cbn. rewrite !list_lookup_fmap, Hk. cbn.
    rewrite mul_zero_r, add_zero_l. reflexivity.
  - intros self.
    unfold FisherKPP._build_linear_operator, array_add_float.
    rewrite Hlap. cbn. rewrite !list_lookup_fmap, Hk. cbn.
    rewrite add_zero_l. reflexivity.
  - intros self Hlen. unfold BelousovZhabotinsky._build_linear_operator.
    rewrite Hlap.
    destruct (BelousovZhabotinsky.diffusivities self) as [|d0 [|d1 [|d2 more]]];
      cbn in Hlen; try lia.
    eexists. split; [reflexivity|].
    intros c Hc. unfold float_mul_array.
    destruct c as [|[|[|c]]]; [| | |lia]; cbn;
      rewrite list_lookup_fmap, Hk; cbn; rewrite mul_zero_r; reflexivity.
Qed.

Lemma Z_mul_szero (x : Z) : (x * szero)%S = szero.
Proof. change (x * 0 = 0)%Z. apply Z.mul_0_r. Qed.

Lemma linear_operators_at_the_mean_mode_witness :
  AllenCahn._build_linear_operator
    (AllenCahn.__init__ 2 1 4 1 AllenCahn.no_kwargs)
    [[0; 1; 2]; [0; 3; 4]]%Z !! 0%nat ≫= (.!! 0%nat)
  = Some 1%Z
  /\ FisherKPP._build_linear_operator
       (FisherKPP.__init__ 2 1 4 1 FisherKPP.no_kwargs)
       [[0; 1; 2]; [0; 3; 4]]%Z !! 0%nat ≫= (.!! 0%nat)
     = Some 1%Z.
Proof.
  destruct (linear_operators_at_the_mean_mode (C := Z) Z_mul_szero Z_zero_add
              [[0; 1; 2]; [0; 3; 4]]%Z 0 ltac:(discriminate)
              ltac:(repeat constructor)) as (Hac & Hfk & _).
  split.
  - rewrite (Hac (AllenCahn.__init__ 2 1 4 1 AllenCahn.no_kwargs)).
    vm_compute. reflexivity.
  - rewrite (Hfk (FisherKPP.__init__ 2 1 4 1 FisherKPP.no_kwargs)).
    vm_compute. reflexivity.
Defined.
